(** * daf_fmt_s3: the S3 storage backend of the data butler

    A shallow embedding of [python/lsst/daf/fmt/s3/s3Storage.py],
    [python/lsst/daf/fmt/s3/fmtRepositoryCfg.py] and of the formatters of
    [tests/test_basics.py], followed by the properties of the storage
    backend, of formatter dispatch and of the repository configuration
    protocol.

    Python strings are [string]; Python integers are [Z]; dictionaries are
    [gmap]; code that talks to the object store is a state-and-exception
    monad over the contents of the store. *)

From stdpp Require Import gmap strings list fin_maps.
From Stdlib Require Import ZArith Ascii.

Local Open Scope Z_scope.

(** ** Python [str] methods used by the sources *)

Module PyStr.

Definition len (s : string) : Z := Z.of_nat (String.length s).

(** [c in s] for a one-character [c]. *)
Fixpoint contains (c : ascii) (s : string) : bool :=
  match s with
  | EmptyString => false
  | String a s' => if Ascii.eqb a c then true else contains c s'
  end.

(** [s.find(c)]: the lowest index of [c], [-1] when there is none. *)
Fixpoint find (c : ascii) (s : string) : Z :=
  match s with
  | EmptyString => -1
  | String a s' =>
      if Ascii.eqb a c then 0
      else let r := find c s' in if r <? 0 then -1 else r + 1
  end.

(** [s.rfind(c)]: the highest index of [c], [-1] when there is none.
    [rfind_from] scans left to right from index [i], remembering the
    last hit. *)
Fixpoint rfind_from (c : ascii) (s : string) (i last : Z) : Z :=
  match s with
  | EmptyString => last
  | String a s' => rfind_from c s' (i + 1) (if Ascii.eqb a c then i else last)
  end.

Definition rfind (c : ascii) (s : string) : Z := rfind_from c s 0 (-1).

(** [s.endswith(c)] for a one-character [c]. *)
Fixpoint endswith (c : ascii) (s : string) : bool :=
  match s with
  | EmptyString => false
  | String a EmptyString => Ascii.eqb a c
  | String _ s' => endswith c s'
  end.

Fixpoint take (n : nat) (s : string) : string :=
  match n, s with
  | S n', String a s' => String a (take n' s')
  | _, _ => EmptyString
  end.

Fixpoint drop (n : nat) (s : string) : string :=
  match n, s with
  | S n', String _ s' => drop n' s'
  | _, _ => s
  end.

(** A slice bound as Python resolves it: a negative index counts from
    the end, and the result is clamped to [0, len s]. *)
Definition bound (s : string) (i : Z) : nat :=
  Z.to_nat (if i <? 0 then Z.max 0 (i + len s) else Z.min i (len s)).

(** [s[:i]] and [s[i:]]. *)
Definition slice_to (s : string) (i : Z) : string := take (bound s i) s.
Definition slice_from (s : string) (i : Z) : string := drop (bound s i) s.

(** [s.lstrip(c)] for a one-character [c]. *)
Fixpoint lstrip (c : ascii) (s : string) : string :=
  match s with
  | EmptyString => EmptyString
  | String a s' => if Ascii.eqb a c then lstrip c s' else s
  end.

Definition upper_char (a : ascii) : ascii :=
  let n := nat_of_ascii a in
  if ((97 <=? n) && (n <=? 122))%nat then ascii_of_nat (n - 32) else a.

Definition lower_char (a : ascii) : ascii :=
  let n := nat_of_ascii a in
  if ((65 <=? n) && (n <=? 90))%nat then ascii_of_nat (n + 32) else a.

Fixpoint map (f : ascii -> ascii) (s : string) : string :=
  match s with
  | EmptyString => EmptyString
  | String a s' => String (f a) (map f s')
  end.

(** [s.upper()] and [s.lower()], on the ASCII letters. *)
Definition upper : string -> string := map upper_char.
Definition lower : string -> string := map lower_char.

Fixpoint forallb (p : ascii -> bool) (s : string) : bool :=
  match s with
  | EmptyString => true
  | String a s' => p a && forallb p s'
  end.

(** The longest prefix of [s] whose characters all satisfy [p], and the
    rest of [s]. *)
Fixpoint span (p : ascii -> bool) (s : string) : string * string :=
  match s with
  | EmptyString => (EmptyString, EmptyString)
  | String a s' =>
      if p a then let '(l, r) := span p s' in (String a l, r)
      else (EmptyString, s)
  end.

(** [s.split(c, 1)] when [c in s]: the text before the first [c] and
    the text after it. *)
Definition split1 (c : ascii) (s : string) : string * string :=
  let '(l, r) := span (fun a => negb (Ascii.eqb a c)) s in (l, drop 1 r).

End PyStr.

(** ** [urllib.parse.urlparse]

    The standard library's parser (CPython 3.6, [urlsplit]), as far as
    [S3Storage.__init__] reads its result: [scheme], [netloc] and [path].
    The [params] component is split off the path only for the schemes of
    [uses_params], which do not include [s3], and the path is read only
    when the scheme is [s3]. *)

Module urllib.

Record ParseResult := {
  scheme : string;
  netloc : string;
  path : string;
  query : string;
  fragment : string
}.

Definition scheme_chars : string :=
  "abcdefghijklmnopqrstuvwxyzABCDEFGHIJKLMNOPQRSTUVWXYZ0123456789+-.".

Definition is_scheme_char (a : ascii) : bool := PyStr.contains a scheme_chars.
Definition is_digit (a : ascii) : bool := PyStr.contains a "0123456789".
Definition is_netloc_end (a : ascii) : bool := PyStr.contains a "/?#".

(** The scheme and what follows it: [url[:i]] is a scheme when [i > 0],
    all its characters are scheme characters and the rest is not a port
    number; [http] takes the fast path, which skips the port test. *)
Definition split_scheme (url : string) : string * string :=
  let i := PyStr.find ":" url in
  if 0 <? i then
    let pre := PyStr.slice_to url i in
    let rest := PyStr.slice_from url (i + 1) in
    if String.eqb pre "http" then (PyStr.lower pre, rest)
    else if PyStr.forallb is_scheme_char pre then
      if String.eqb rest "" || negb (PyStr.forallb is_digit rest)
      then (PyStr.lower pre, rest)
      else ("", url)
    else ("", url)
  else ("", url).

(** [_splitnetloc(url, 2)]: the authority runs up to the first of
    [/], [?] and [#]. *)
Definition splitnetloc (url : string) : string * string :=
  PyStr.span (fun a => negb (is_netloc_end a)) (PyStr.drop 2 url).

Definition bad_brackets (netloc : string) : bool :=
  (PyStr.contains "[" netloc && negb (PyStr.contains "]" netloc))
  || (PyStr.contains "]" netloc && negb (PyStr.contains "[" netloc)).

(** [None] stands for [ValueError("Invalid IPv6 URL")]. *)
Definition urlparse (uri : string) : option ParseResult :=
  let '(sch, url) := split_scheme uri in
  let '(loc, url) :=
    if String.eqb (PyStr.slice_to url 2) "//" then splitnetloc url
    else ("", url) in
  if bad_brackets loc then None
  else
    let '(url, frag) :=
      if PyStr.contains "#" url then PyStr.split1 "#" url else (url, "") in
    let '(url, qry) :=
      if PyStr.contains "?" url then PyStr.split1 "?" url else (url, "") in
    Some {| scheme := sch; netloc := loc; path := url;
            query := qry; fragment := frag |}.

End urllib.

(** ** Exceptions and results *)

Inductive RuntimeReason :=
| UnsupportedScheme (scheme : string)     (* "S3Storage does not support scheme:..." *)
| NoStorageRegistered (scheme : string)   (* "No storage registered for scheme ..." *)
| NoWriteFormatter                        (* "No write formatter registered with ..." *)
| NoReadFormatter.                        (* "No read formatter registered with ..." *)

Inductive Exn :=
| RuntimeError (why : RuntimeReason)
| NoRepositroyAtRoot (uri : string)
| ParamValidationError
| ClientError (code : string)
| ValueError
| IndexError
| AttributeError
| DecodeError
| NotImplementedError.

Inductive Result (A : Type) :=
| Ok (a : A)
| Raise (e : Exn).
Arguments Ok {A} a.
Arguments Raise {A} e.

(** A Python value as the backend handles it: [None], an object, or a
    list of objects. *)
Inductive PyObj (V : Type) :=
| PyNone
| PyVal (v : V)
| PyList (l : list V).
Arguments PyNone {V}.
Arguments PyVal {V} v.
Arguments PyList {V} l.

(** ** The object store

    The contents of the store are a dictionary of buckets, each a
    dictionary from keys to bodies. [calls] is the sequence of requests
    that were sent to the store. *)

Definition Body := list Byte.byte.

Inductive ApiCall :=
| HeadBucket (Bucket : string)
| CreateBucket (Bucket : string)
| PutObject (Bucket Key : string)
| DownloadFile (Bucket Key : string)
| ListObjects (Bucket Prefix : string)
| CopyObject (SrcBucket SrcKey Bucket Key : string).

Record S3 := {
  buckets : gmap string (gmap string Body);
  calls : list ApiCall
}.

(** Code that talks to the store: it returns or raises, and leaves the
    store in a new state either way. *)
Definition M (A : Type) : Type := S3 -> Result A * S3.

Definition ret {A} (a : A) : M A := fun w => (Ok a, w).
Definition raise {A} (e : Exn) : M A := fun w => (Raise e, w).
Definition bind {A B} (m : M A) (k : A -> M B) : M B :=
  fun w => match m w with
           | (Ok a, w') => k a w'
           | (Raise e, w') => (Raise e, w')
           end.
Definition lift {A} (r : Result A) : M A := fun w => (r, w).

(** [try m except e: h] for an exception class given as a predicate. *)
Definition try_except {A} (m : M A) (catches : Exn -> bool) (h : M A) : M A :=
  fun w => match m w with
           | (Raise e, w') => if catches e then h w' else (Raise e, w')
           | r => r
           end.

Declare Scope M_scope.
Delimit Scope M_scope with M.
Bind Scope M_scope with M.
Notation "x ← y ; z" := (bind y (fun x => z))
  (at level 20, y at level 100, z at level 200, only parsing) : M_scope.
Notation "y ;; z" := (bind y (fun _ => z))
  (at level 100, z at level 200, only parsing, right associativity) : M_scope.
Local Open Scope M_scope.

Definition is_ClientError (e : Exn) : bool :=
  match e with ClientError _ => true | _ => false end.
Definition is_ParamValidationError (e : Exn) : bool :=
  match e with ParamValidationError => true | _ => false end.

(** ** The collaborators

    What the backend takes from outside the package: botocore's check of
    a [Bucket] parameter, the Python objects and their types,
    [lsst.daf.persistence.RepositoryCfg] and its attributes, and the YAML
    and pickle codecs. A decoder returns [None] when it raises. *)

Class Collaborators := {
  valid_bucket_name : string -> bool;
  PyType : Type;
  PyType_eq_dec :: EqDecision PyType;
  PyType_countable :: Countable PyType;
  Value : Type;
  type_of : Value -> PyType;
  RepositoryCfg : PyType;
  cfg_root : Value -> option string;
  cfg_mapper : Value -> option Value;
  yaml_dump : Value -> Body;
  yaml_load : Body -> option (PyObj Value);
  pickle_dump : Value -> Body;
  pickle_load : Body -> option Value
}.

(** ** boto3

    The requests the package makes. A [Bucket] parameter is validated on
    the client before anything is sent ([ParamValidationError]); a request
    for a bucket or key that is not there fails with [ClientError].
    Creating a bucket that is already there succeeds and keeps its
    contents. The store is taken to be reachable. *)

Module boto3.
Section client.
Context `{Collaborators}.

(** [s3.Bucket(name)]: a handle, created without a request. *)
Record Bucket := { name : string }.

Definition send (c : ApiCall) (w : S3) : S3 :=
  {| buckets := buckets w; calls := calls w ++ [c] |}.

Definition set_bucket (b : string) (objs : gmap string Body) (w : S3) : S3 :=
  {| buckets := <[b := objs]> (buckets w); calls := calls w |}.

Definition head_bucket (Bucket : string) : M unit := fun w =>
  if valid_bucket_name Bucket then
    let w' := send (HeadBucket Bucket) w in
    match buckets w !! Bucket with
    | Some _ => (Ok tt, w')
    | None => (Raise (ClientError "404"), w')
    end
  else (Raise ParamValidationError, w).

Definition create_bucket (Bucket : string) : M unit := fun w =>
  if valid_bucket_name Bucket then
    let w' := send (CreateBucket Bucket) w in
    match buckets w !! Bucket with
    | Some _ => (Ok tt, w')
    | None => (Ok tt, set_bucket Bucket ∅ w')
    end
  else (Raise ParamValidationError, w).

Definition put_object (b : Bucket) (Key : string) (body : Body) : M unit := fun w =>
  if valid_bucket_name (name b) then
    let w' := send (PutObject (name b) Key) w in
    match buckets w !! name b with
    | Some objs => (Ok tt, set_bucket (name b) (<[Key := body]> objs) w')
    | None => (Raise (ClientError "NoSuchBucket"), w')
    end
  else (Raise ParamValidationError, w).

(** [bucket.download_file(Key, Filename)]; the result is what the local
    file then holds. *)
Definition download_file (b : Bucket) (Key : string) : M Body := fun w =>
  if valid_bucket_name (name b) then
    let w' := send (DownloadFile (name b) Key) w in
    match buckets w !! name b ≫= (.!! Key) with
    | Some body => (Ok body, w')
    | None => (Raise (ClientError "404"), w')
    end
  else (Raise ParamValidationError, w).

(** [list(bucket.objects.filter(Prefix=p))], as the keys of the objects
    listed. *)
Definition objects_filter (b : Bucket) (Prefix : string) : M (list string) := fun w =>
  if valid_bucket_name (name b) then
    let w' := send (ListObjects (name b) Prefix) w in
    match buckets w !! name b with
    | Some objs =>
        (Ok (filter (fun k => String.prefix Prefix k = true) (map_to_list objs).*1), w')
    | None => (Raise (ClientError "NoSuchBucket"), w')
    end
  else (Raise ParamValidationError, w).

(** [bucket.copy({'Bucket': sb, 'Key': sk}, Key)]. *)
Definition copy (b : Bucket) (CopySource : string * string) (Key : string) : M unit := fun w =>
  let '(sb, sk) := CopySource in
  if valid_bucket_name sb && valid_bucket_name (name b) then
    let w' := send (CopyObject sb sk (name b) Key) w in
    match buckets w !! sb ≫= (.!! sk), buckets w !! name b with
    | Some body, Some objs => (Ok tt, set_bucket (name b) (<[Key := body]> objs) w')
    | None, _ => (Raise (ClientError "404"), w')
    | _, None => (Raise (ClientError "NoSuchBucket"), w')
    end
  else (Raise ParamValidationError, w).

End client.
End boto3.

(** ** lsst.daf.persistence: what the backend uses of it *)

Module dafPersist.
Section persistence.
Context `{Collaborators}.

(** [ButlerLocation], with the two fields the backend and the
    formatters read. A [locationList] given as [None] is kept as the
    empty list. *)
Record ButlerLocation := {
  pythonType : option PyType;
  locationList : list string
}.

Definition mkButlerLocation (pythonType : option PyType)
    (locationList : option (list string)) : ButlerLocation :=
  {| pythonType := pythonType; locationList := default [] locationList |}.

Definition getLocations (loc : ButlerLocation) : list string := locationList loc.
Definition getPythonType (loc : ButlerLocation) : option PyType := pythonType loc.

(** The formatter registry of a storage class: [StorageInterface]'s two
    class-level dictionaries. A formatter receives the bucket, the
    location and, to write, the object. *)
Definition ReadFormatter : Type := boto3.Bucket -> ButlerLocation -> M (PyObj Value).
Definition WriteFormatter : Type := boto3.Bucket -> ButlerLocation -> Value -> M unit.

Record Formatters := {
  readFormatters : gmap PyType ReadFormatter;
  writeFormatters : gmap PyType WriteFormatter
}.

(** [cls._readFormatters().get(objType, None)]; the [None] that a
    location without a type carries is no key of the dictionary. *)
Definition getReadFormatter (reg : Formatters) (objType : option PyType)
    : option ReadFormatter :=
  match objType with
  | Some t => readFormatters reg !! t
  | None => None
  end.

Definition getWriteFormatter (reg : Formatters) (objType : PyType)
    : option WriteFormatter :=
  writeFormatters reg !! objType.

End persistence.
End dafPersist.

(** ** s3Storage.py *)

Module S3Storage.
Section S3Storage.
Context `{Collaborators}.
Import dafPersist.

(** The instance attributes set by [__init__]. *)
Record S3Storage := {
  bucketName : string;
  bucket : boto3.Bucket
}.

(** [__init__], lines 63-70: the scheme test and the bucket name. *)
Definition parseBucketName (uri : string) : Result string :=
  match urllib.urlparse uri with
  | None => Raise ValueError
  | Some parseRes =>
      if negb (String.eqb (PyStr.upper (urllib.scheme parseRes)) "S3") then
        Raise (RuntimeError (UnsupportedScheme (urllib.scheme parseRes)))
      else
        Ok (PyStr.lstrip "/"
              (if String.eqb (urllib.netloc parseRes) "" then urllib.path parseRes
               else urllib.netloc parseRes))
  end.

Definition _bucketExists (uri : string) : M bool :=
  try_except (boto3.head_bucket uri;; ret true)
             is_ParamValidationError
             (ret false).

Definition __init__ (uri : string) (create : bool) : M S3Storage :=
  bucketName ← lift (parseBucketName uri);
  found ← _bucketExists uri;
  (if found then ret tt
   else if create then boto3.create_bucket bucketName
        else raise (NoRepositroyAtRoot uri));;
  ret {| bucketName := bucketName; bucket := {| boto3.name := bucketName |} |}.

Section methods.
(** The formatters registered with the class. *)
Variable formatters : Formatters.

Definition write (self : S3Storage) (butlerLocation : ButlerLocation)
    (obj : Value) : M unit :=
  match getWriteFormatter formatters (type_of obj) with
  | None => raise (RuntimeError NoWriteFormatter)
  | Some writeFormatter => writeFormatter (bucket self) butlerLocation obj
  end.

Definition read (self : S3Storage) (butlerLocation : ButlerLocation)
    : M (PyObj Value) :=
  match getReadFormatter formatters (getPythonType butlerLocation) with
  | None => raise (RuntimeError NoReadFormatter)
  | Some readFormatter => readFormatter (bucket self) butlerLocation
  end.
End methods.

Definition getLocalFile (self : S3Storage) (path : string) : M string :=
  raise NotImplementedError.

(** The loop of [exists] over the objects listed. *)
Fixpoint key_listed (objectName : string) (bucketObjects : list string) : bool :=
  match bucketObjects with
  | [] => false
  | key :: rest => if String.eqb objectName key then true else key_listed objectName rest
  end.

Definition exists_ (self : S3Storage) (location : ButlerLocation) : M bool :=
  match getLocations location with
  | [] => raise IndexError
  | objectName :: _ =>
      bucketObjects ← boto3.objects_filter (bucket self) objectName;
      ret (key_listed objectName bucketObjects)
  end.

(** [instanceSearch], lines 195-197. *)
Definition strippedPath (path : string) : string :=
  if PyStr.endswith "]" path then PyStr.slice_to path (PyStr.rfind "[" path)
  else path.

Definition instanceSearch (self : S3Storage) (path : string) : M bool :=
  let location := mkButlerLocation None (Some [strippedPath path]) in
  exists_ self location.

Definition search (root path : string) : M (option string) :=
  raise NotImplementedError.

Definition copyFile (self : S3Storage) (fromLocation toLocation : string) : M unit :=
  let copy_source := (bucketName self, fromLocation) in
  boto3.copy (bucket self) copy_source toLocation.

Definition locationWithRoot (self : S3Storage) (location : string) : M string :=
  raise NotImplementedError.

(** The storage classes registered at the end of the module, under
    the schemes [s3] and [S3]. *)
Definition storages : list string := ["s3"; "S3"].

(** [dafPersist.Storage.makeFromURI(uri, create=True)]: the class
    registered for the scheme of [uri] is instantiated. *)
Definition makeFromURI (uri : string) (create : bool) : M S3Storage :=
  match urllib.urlparse uri with
  | None => raise ValueError
  | Some parseRes =>
      if bool_decide (urllib.scheme parseRes ∈ storages) then __init__ uri create
      else raise (RuntimeError (NoStorageRegistered (urllib.scheme parseRes)))
  end.

Section classmethods.
Variable formatters : Formatters.

Definition getRepositoryCfg (uri : string) : M (PyObj Value) :=
  storage ← makeFromURI uri true;
  let location := mkButlerLocation (Some RepositoryCfg) None in
  read formatters storage location.

Definition putRepositoryCfg (cfg : Value) (loc : option string) : M unit :=
  uri ← match loc with
        | None => match cfg_root cfg with
                  | Some root => ret root
                  | None => raise AttributeError
                  end
        | Some loc => ret loc
        end;
  storage ← makeFromURI uri true;
  let location := mkButlerLocation (Some RepositoryCfg) None in
  write formatters storage location cfg.

Definition getMapperClass (root : string) : M Value :=
  cfg ← getRepositoryCfg root;
  match cfg with
  | PyNone => raise (NoRepositroyAtRoot root)
  | PyVal cfg =>
      match cfg_mapper cfg with
      | Some mapper => ret mapper
      | None => raise AttributeError
      end
  | PyList _ => raise AttributeError
  end.
End classmethods.

End S3Storage.
End S3Storage.

(** ** fmtRepositoryCfg.py *)

Module fmtRepositoryCfg.
Section fmtRepositoryCfg.
Context `{Collaborators}.
Import dafPersist.

Definition remoteCfgName : string := "repositoryCfg.yaml".

Definition writeRepositoryCfg (bucket : boto3.Bucket)
    (butlerLocation : ButlerLocation) (obj : Value) : M unit :=
  boto3.put_object bucket remoteCfgName (yaml_dump obj).

Definition readRepositoryCfg (bucket : boto3.Bucket)
    (butlerLocation : ButlerLocation) : M (PyObj Value) :=
  downloaded ← try_except (j ← boto3.download_file bucket "repositoryCfg.yaml"; ret (Some j))
                          is_ClientError (ret None);
  match downloaded with
  | None => ret PyNone
  | Some j =>
      match yaml_load j with
      | Some cfg => ret cfg
      | None => raise DecodeError
      end
  end.

End fmtRepositoryCfg.
End fmtRepositoryCfg.

(** ** tests/test_basics.py: the formatters of [MyTestObject] *)

Module test_basics.
Section test_basics.
Context `{Collaborators}.
Import dafPersist.

Definition writeMyTestObject (bucket : boto3.Bucket)
    (butlerLocation : ButlerLocation) (obj : Value) : M unit :=
  let body := pickle_dump obj in
  match getLocations butlerLocation with
  | [] => raise IndexError
  | key :: _ => boto3.put_object bucket key body
  end.

Definition readMyTestObject (bucket : boto3.Bucket)
    (butlerLocation : ButlerLocation) : M (PyObj Value) :=
  downloaded ← try_except
                 (match getLocations butlerLocation with
                  | [] => raise IndexError
                  | key :: _ => f ← boto3.download_file bucket key; ret (Some f)
                  end)
                 is_ClientError (ret None);
  match downloaded with
  | None => ret PyNone
  | Some f =>
      match pickle_load f with
      | Some obj => ret (PyList [obj])
      | None => raise DecodeError
      end
  end.

End test_basics.
End test_basics.

(** ** Vocabulary of the statements *)

Section vocabulary.
Context `{Collaborators}.

(** The backend that [__init__] returns for the bucket name [b]. *)
Definition backend (b : string) : S3Storage.S3Storage :=
  {| S3Storage.bucketName := b; S3Storage.bucket := {| boto3.name := b |} |}.

(** The objects of bucket [b], none when the bucket is not there. *)
Definition objects (w : S3) (b : string) : gmap string Body :=
  default ∅ (buckets w !! b).

(** The store once [create_bucket b] has been sent: an existing
    bucket keeps its objects. *)
Definition created (b : string) (w : S3) : S3 :=
  boto3.set_bucket b (objects w b) (boto3.send (CreateBucket b) w).

(** [k] consecutive slashes. *)
Fixpoint slashes (k : nat) : string :=
  match k with
  | O => ""
  | S k' => String "/" (slashes k')
  end.

(** Test 7 of the specification as a program: write [v] at [locA],
    copy [A] to [A_copy], read at [locCopy], write [v'] at [locA], read
    at [locCopy] again; the two values read are returned. *)
Definition copy_scenario (formatters : dafPersist.Formatters)
    (self : S3Storage.S3Storage) (locA locCopy : dafPersist.ButlerLocation)
    (A A_copy : string) (v v' : Value) : M (PyObj Value * PyObj Value) :=
  S3Storage.write formatters self locA v;;
  S3Storage.copyFile self A A_copy;;
  first ← S3Storage.read formatters self locCopy;
  S3Storage.write formatters self locA v';;
  second ← S3Storage.read formatters self locCopy;
  ret (first, second).

(** Test 6 of the specification as a program: put [cfg], get, put
    [cfg'], get; the two configurations read are returned. *)
Definition cfg_scenario (formatters : dafPersist.Formatters)
    (root : string) (cfg cfg' : Value) : M (PyObj Value * PyObj Value) :=
  S3Storage.putRepositoryCfg formatters cfg None;;
  first ← S3Storage.getRepositoryCfg formatters root;
  S3Storage.putRepositoryCfg formatters cfg' None;;
  second ← S3Storage.getRepositoryCfg formatters root;
  ret (first, second).

End vocabulary.

(** ** A concrete set of collaborators

    botocore's check of a bucket name ([^[a-zA-Z0-9.\-_]{1,255}$]), class
    names for types, three kinds of object, and line-oriented codecs. It
    serves to run the package on concrete inputs. *)

Module botocore.

Definition is_bucket_char (a : ascii) : bool :=
  PyStr.contains a "abcdefghijklmnopqrstuvwxyzABCDEFGHIJKLMNOPQRSTUVWXYZ0123456789.-_".

Definition validate_bucket_name (b : string) : bool :=
  PyStr.forallb is_bucket_char b
  && (1 <=? String.length b)%nat && (String.length b <=? 255)%nat.

End botocore.

Module Demo.

Inductive Obj :=
| CfgObj (root mapper : string)
| MyTestObject (val : string)
| ClassObj (name : string).

Definition class_of (o : Obj) : string :=
  match o with
  | CfgObj _ _ => "RepositoryCfg"
  | MyTestObject _ => "MyTestObject"
  | ClassObj _ => "type"
  end.

Definition root_of (o : Obj) : option string :=
  match o with CfgObj root _ => Some root | _ => None end.

Definition mapper_of (o : Obj) : option Obj :=
  match o with CfgObj _ mapper => Some (ClassObj mapper) | _ => None end.

Definition newline : Byte.byte := Byte.x0a.

Fixpoint split_line (l : Body) : Body * option Body :=
  match l with
  | [] => ([], None)
  | c :: l' =>
      if Byte.eqb c newline then ([], Some l')
      else let '(a, b) := split_line l' in (c :: a, b)
  end.

Definition to_bytes (s : string) : Body := String.list_byte_of_string s.
Definition of_bytes (l : Body) : string := String.string_of_list_byte l.

Definition dump_yaml (o : Obj) : Body :=
  match o with
  | CfgObj root mapper => to_bytes root ++ newline :: to_bytes mapper
  | MyTestObject val => to_bytes val
  | ClassObj name => to_bytes name
  end.

Definition load_yaml (l : Body) : option (PyObj Obj) :=
  match l with
  | [] => Some PyNone
  | _ => match split_line l with
         | (root, Some mapper) => Some (PyVal (CfgObj (of_bytes root) (of_bytes mapper)))
         | (_, None) => None
         end
  end.

Definition dump_pickle (o : Obj) : Body :=
  match o with
  | MyTestObject val => to_bytes val
  | CfgObj root mapper => to_bytes root ++ newline :: to_bytes mapper
  | ClassObj name => to_bytes name
  end.

Definition load_pickle (l : Body) : option Obj :=
  Some (MyTestObject (of_bytes l)).

#[export] Instance collaborators : Collaborators := {|
  valid_bucket_name := botocore.validate_bucket_name;
  PyType := string;
  Value := Obj;
  type_of := class_of;
  RepositoryCfg := "RepositoryCfg";
  cfg_root := root_of;
  cfg_mapper := mapper_of;
  yaml_dump := dump_yaml;
  yaml_load := load_yaml;
  pickle_dump := dump_pickle;
  pickle_load := load_pickle
|}.

(** The registry once [fmtRepositoryCfg] and the tests are imported. *)
Definition formatters : dafPersist.Formatters :=
  {| dafPersist.readFormatters :=
       {[ "RepositoryCfg" := fmtRepositoryCfg.readRepositoryCfg;
          "MyTestObject" := test_basics.readMyTestObject ]};
     dafPersist.writeFormatters :=
       {[ "RepositoryCfg" := fmtRepositoryCfg.writeRepositoryCfg;
          "MyTestObject" := test_basics.writeMyTestObject ]} |}.

Definition empty_store : S3 := {| buckets := ∅; calls := [] |}.

(** A store with one bucket holding the given objects. *)
Definition store_with (b : string) (objs : list (string * Body)) : S3 :=
  {| buckets := {[ b := list_to_map objs ]}; calls := [] |}.

Definition loc (t : string) (key : string) : dafPersist.ButlerLocation :=
  dafPersist.mkButlerLocation (Some t) (Some [key]).

(** The inputs of the runs below. *)
Definition my_bucket : S3 := store_with "my-bucket" [].
Definition foo_fits : list (string * Body) := [("foo.fits", [])].
Definition cfg : Obj := CfgObj "s3:///test_S3Storage" "MyMapper".
Definition cfg' : Obj := CfgObj "s3:///test_S3Storage" "OtherMapper".

(** [copy_scenario] on the bucket [test_copy], for objects of one
    type written at [testname] and copied to [testname_copy]. *)
Definition copy_run (t : string) (v v' : Obj) (before : list (string * Body))
    : Result (PyObj Obj * PyObj Obj) :=
  (copy_scenario formatters (backend "test_copy")
     (loc t "testname") (loc t "testname_copy")
     "testname" "testname_copy" v v' (store_with "test_copy" before)).1.

End Demo.


(** ** tests/test_basics.py: the helpers of [BasicTestCase] *)

Module BasicTestCase.

(** [os.path.join(a, b)] (posixpath, two arguments). *)
Definition os_path_join (a b : string) : string :=
  if String.prefix "/" b then b
  else if String.eqb a "" || PyStr.endswith "/" a then a +:+ b
  else a +:+ "/" +:+ b.

(** [_prefixBucketName]; the first argument is the environment variable
    [LSST_S3_TEST_BUCKET_PREFIX], [None] when it is not set. *)
Definition _prefixBucketName (LSST_S3_TEST_BUCKET_PREFIX : option string)
    (bucketName : string) : string :=
  match LSST_S3_TEST_BUCKET_PREFIX with
  | None => bucketName
  | Some p => if String.eqb p "" then bucketName else p +:+ "-" +:+ bucketName
  end.

(** [_getS3URI]: the URI returned and the new value of
    [self.cleanupBucketNames]. *)
Definition _getS3URI (LSST_S3_TEST_BUCKET_PREFIX : option string)
    (cleanupBucketNames : list string) (bucketName : string) : string * list string :=
  let bucketName := _prefixBucketName LSST_S3_TEST_BUCKET_PREFIX "test_copy" in
  (os_path_join "s3:///" bucketName, cleanupBucketNames ++ [bucketName]).

End BasicTestCase.

(** ** Further inputs of the concrete runs *)

Module Fixtures.

(** A registry with no formatter. *)
Definition no_formatters : @dafPersist.Formatters Demo.collaborators :=
  {| dafPersist.readFormatters := ∅; dafPersist.writeFormatters := ∅ |}.

Definition testname : list (string * Body) := [("testname", [])].

(** A bucket whose configuration key holds an empty body. *)
Definition empty_cfg : S3 := Demo.store_with "test_mapper" [("repositoryCfg.yaml", [])].

End Fixtures.

(** * Properties *)

(** ** Strings *)

Module PyStrFacts.
Import PyStr.

Lemma app_nil (b : string) : "" +:+ b = b.
Proof. reflexivity. Qed.

Lemma app_cons x (a b : string) : String x a +:+ b = String x (a +:+ b).
Proof. reflexivity. Qed.

Lemma len_cons a s : len (String a s) = len s + 1.
Proof. unfold len. cbn [String.length]. lia. Qed.

Lemma len_nonneg s : 0 <= len s.
Proof. unfold len. lia. Qed.

Lemma len_app a b : len (a +:+ b) = len a + len b.
Proof.
  induction a as [|x a IH].
  - rewrite app_nil. unfold len. cbn. lia.
  - rewrite app_cons, !len_cons, IH. lia.
Qed.

Lemma app_assoc (a b c : string) : (a +:+ b) +:+ c = a +:+ b +:+ c.
Proof.
  induction a as [|x a IH]; [done|].
  by rewrite !app_cons, IH.
Qed.

Lemma contains_app c a b : contains c (a +:+ b) = contains c a || contains c b.
Proof.
  induction a as [|x a IH]; [done|].
  rewrite app_cons. cbn. destruct (Ascii.eqb x c); [done | apply IH].
Qed.

Lemma forallb_app p a b : forallb p (a +:+ b) = forallb p a && forallb p b.
Proof.
  induction a as [|x a IH]; [done|].
  rewrite app_cons. cbn. rewrite IH. by destruct (p x).
Qed.

Lemma forallb_impl (p q : ascii -> bool) s :
  (forall a, p a = true -> q a = true) -> forallb p s = true -> forallb q s = true.
Proof.
  intros Hpq. induction s as [|x s IH]; cbn; [done|].
  intros [Hx Hs]%andb_prop. rewrite (Hpq _ Hx). cbn. auto.
Qed.

(** A character that [p] rejects does not occur in a string of
    characters that [p] accepts. *)
Lemma forallb_not_contains p c s :
  p c = false -> forallb p s = true -> contains c s = false.
Proof.
  intros Hc. induction s as [|x s IH]; cbn; [done|].
  intros [Hx Hs]%andb_prop.
  destruct (Ascii.eqb_spec x c) as [->|_]; [congruence | auto].
Qed.

Lemma take_app a b : take (String.length a) (a +:+ b) = a.
Proof.
  induction a as [|x a IH]; [by destruct b|].
  rewrite app_cons. cbn. by rewrite IH.
Qed.

Lemma drop_app a b : drop (String.length a) (a +:+ b) = b.
Proof.
  induction a as [|x a IH]; [by destruct b|].
  rewrite app_cons. cbn. done.
Qed.

Lemma bound_app a b : bound (a +:+ b) (len a) = String.length a.
Proof.
  unfold bound. rewrite len_app.
  pose proof (len_nonneg a). pose proof (len_nonneg b).
  destruct (Z.ltb_spec (len a) 0); [lia|].
  unfold len in *. lia.
Qed.

Lemma slice_to_app a b : slice_to (a +:+ b) (len a) = a.
Proof. unfold slice_to. rewrite bound_app. apply take_app. Qed.

Lemma slice_from_app a b : slice_from (a +:+ b) (len a) = b.
Proof. unfold slice_from. rewrite bound_app. apply drop_app. Qed.

(** [s[:-1]] drops the last character. *)
Lemma slice_to_minus_one a x : slice_to (a +:+ String x "") (-1) = a.
Proof.
  unfold slice_to, bound. rewrite len_app, len_cons.
  pose proof (len_nonneg a).
  replace (Z.to_nat _) with (String.length a).
  - apply take_app.
  - change (-1 <? 0) with true. cbv iota. unfold len in *. cbn [String.length]. lia.
Qed.

Lemma find_app c a b :
  contains c a = false -> find c (a +:+ String c b) = len a.
Proof.
  induction a as [|x a IH].
  - intros _. rewrite app_nil. cbn. by rewrite Ascii.eqb_refl.
  - rewrite app_cons. cbn [find contains].
    destruct (Ascii.eqb x c); [done|]. intros Ha.
    rewrite (IH Ha), len_cons. pose proof (len_nonneg a).
    destruct (Z.ltb_spec (len a) 0); lia.
Qed.

Lemma rfind_from_absent c s i last :
  contains c s = false -> rfind_from c s i last = last.
Proof.
  revert i last. induction s as [|x s IH]; intros i last; cbn; [done|].
  destruct (Ascii.eqb x c); [done | apply IH].
Qed.

Lemma rfind_from_last c a b i last :
  contains c b = false -> rfind_from c (a +:+ String c b) i last = i + len a.
Proof.
  intros Hb. revert i last.
  induction a as [|x a IH]; intros i last.
  - rewrite app_nil. cbn [rfind_from].
    rewrite Ascii.eqb_refl, rfind_from_absent by done. unfold len. cbn. lia.
  - rewrite app_cons. cbn [rfind_from]. rewrite IH, len_cons. lia.
Qed.

(** The last occurrence of [c] in [a c b], when [b] has none. *)
Lemma rfind_last c a b :
  contains c b = false -> rfind c (a +:+ String c b) = len a.
Proof. intros Hb. unfold rfind. by rewrite rfind_from_last. Qed.

Lemma rfind_absent c s : contains c s = false -> rfind c s = -1.
Proof. apply rfind_from_absent. Qed.

Lemma endswith_app c a x s : endswith c (a +:+ String x s) = endswith c (String x s).
Proof.
  induction a as [|y a IH]; [done|].
  rewrite app_cons, <- IH.
  destruct a; reflexivity.
Qed.

Lemma endswith_last c a : endswith c (a +:+ String c "") = true.
Proof. rewrite endswith_app. cbn. apply Ascii.eqb_refl. Qed.

Lemma span_all p s : forallb p s = true -> span p s = (s, "").
Proof.
  induction s as [|x s IH]; cbn; [done|].
  intros [-> Hs]%andb_prop. by rewrite (IH Hs).
Qed.

Lemma lstrip_keep c s : contains c s = false -> lstrip c s = s.
Proof. destruct s as [|x s]; cbn; [done|]. by destruct (Ascii.eqb x c). Qed.

End PyStrFacts.

(** ** The HDU suffix *)

Section stripping.
Context `{Collaborators}.
Import PyStr PyStrFacts.

(** Everything from the last [[] on is removed from a path that ends
    in []]. *)
Lemma strippedPath_bracket a b :
  contains "[" b = false ->
  S3Storage.strippedPath (a +:+ "[" +:+ b +:+ "]") = a.
Proof.
  intros Hb. unfold S3Storage.strippedPath.
  replace (a +:+ "[" +:+ b +:+ "]") with ((a +:+ "[" +:+ b) +:+ "]")
    by (by rewrite !app_assoc).
  rewrite endswith_last.
  rewrite !app_assoc, app_cons, app_nil.
  rewrite rfind_last by (by rewrite contains_app, Hb).
  apply slice_to_app.
Qed.

(** Without any [[], only the final []] is removed. *)
Lemma strippedPath_no_bracket a :
  contains "[" a = false ->
  S3Storage.strippedPath (a +:+ "]") = a.
Proof.
  intros Ha. unfold S3Storage.strippedPath.
  rewrite endswith_last.
  rewrite rfind_absent by (by rewrite contains_app, Ha).
  apply slice_to_minus_one.
Qed.

Lemma strippedPath_unchanged path :
  endswith "]" path = false -> S3Storage.strippedPath path = path.
Proof. intros Hp. unfold S3Storage.strippedPath. by rewrite Hp. Qed.

Lemma digits_no_bracket n :
  forallb urllib.is_digit n = true -> contains "[" n = false.
Proof. by apply forallb_not_contains. Qed.

End stripping.

(** ** Listing and existence *)

Section existence.
Context `{Collaborators}.
Import dafPersist.

Lemma prefix_refl (s : string) : String.prefix s s = true.
Proof.
  induction s as [|x s IH]; cbn; [done|].
  destruct (ascii_dec x x); [done | congruence].
Qed.

Lemma key_listed_elem_of (k : string) (l : list string) :
  S3Storage.key_listed k l = true <-> k ∈ l.
Proof.
  induction l as [|x l IH]; cbn.
  - split; [done | by intros ?%elem_of_nil].
  - destruct (String.eqb_spec k x) as [->|Hne].
    + split; [intros _; left | done].
    + rewrite IH. split; [by right | by intros [?|?]%elem_of_cons].
Qed.

Lemma elem_of_keys (objs : gmap string Body) (k : string) :
  k ∈ (map_to_list objs).*1 <-> is_Some (objs !! k).
Proof.
  rewrite list_elem_of_fmap. split.
  - intros [[k' body] [-> Hin%elem_of_map_to_list]]. by exists body.
  - intros [body Hk]. exists (k, body). by rewrite elem_of_map_to_list.
Qed.

(** A key is among the objects listed under its own name as prefix
    exactly when it is a key of the bucket. *)
Lemma key_listed_own_prefix (objs : gmap string Body) (k : string) :
  S3Storage.key_listed k
    (filter (fun k' => String.prefix k k' = true) (map_to_list objs).*1)
  = bool_decide (is_Some (objs !! k)).
Proof.
  apply eq_true_iff_eq. rewrite key_listed_elem_of, bool_decide_eq_true.
  rewrite list_elem_of_filter, elem_of_keys.
  split; [by intros [_ ?] | intros ?; split; [apply prefix_refl | done]].
Qed.

(** [exists] on a backend whose bucket is there: one listing request,
    and the answer is whether the first key of the location is a key
    of the bucket. *)
Lemma exists_run (self : S3Storage.S3Storage) pt k rest (w : S3) objs :
  let b := boto3.name (S3Storage.bucket self) in
  valid_bucket_name b = true ->
  buckets w !! b = Some objs ->
  S3Storage.exists_ self {| pythonType := pt; locationList := k :: rest |} w
  = (Ok (bool_decide (is_Some (objs !! k))), boto3.send (ListObjects b k) w).
Proof.
  intros b Hvalid Hb.
  unfold S3Storage.exists_, getLocations, bind, ret, boto3.objects_filter.
  cbn [locationList]. fold b. rewrite Hvalid, Hb.
  by rewrite key_listed_own_prefix.
Qed.

(** [exists] answers [True] only for a key of the bucket, whatever the
    state of the store. *)
Lemma exists_true_stored (self : S3Storage.S3Storage) pt k rest (w : S3) :
  (S3Storage.exists_ self {| pythonType := pt; locationList := k :: rest |} w).1 = Ok true ->
  is_Some (objects w (boto3.name (S3Storage.bucket self)) !! k).
Proof.
  unfold S3Storage.exists_, getLocations, bind, ret, boto3.objects_filter, objects.
  cbn [locationList].
  destruct (valid_bucket_name _); [|done].
  destruct (buckets w !! _) as [objs|]; [|done].
  cbn. rewrite key_listed_own_prefix. intros [= Hk%bool_decide_eq_true]. done.
Qed.

Lemma instanceSearch_exists (self : S3Storage.S3Storage) path :
  S3Storage.instanceSearch self path
  = S3Storage.exists_ self
      {| pythonType := None; locationList := [S3Storage.strippedPath path] |}.
Proof. reflexivity. Qed.

End existence.

(** ** Claims about existence and search *)

Section search_claims.
Context `{Collaborators}.
Import dafPersist.

(** C2. On a backend whose bucket is there, [exists] of a location
    whose first key is [k] returns, and it returns [True] exactly when
    the bucket holds an object whose key is [k] itself: a longer key
    that the prefix listing returns does not count. *)
Theorem exists_iff_exact_key (self : S3Storage.S3Storage) pt k rest (w : S3) objs :
  valid_bucket_name (boto3.name (S3Storage.bucket self)) = true ->
  buckets w !! boto3.name (S3Storage.bucket self) = Some objs ->
  ((S3Storage.exists_ self {| pythonType := pt; locationList := k :: rest |} w).1 = Ok true
     <-> exists body, objs !! k = Some body)
  /\ ((S3Storage.exists_ self {| pythonType := pt; locationList := k :: rest |} w).1 = Ok false
     <-> objs !! k = None).
Proof.
  intros Hvalid Hb.
  rewrite (exists_run self pt k rest w objs Hvalid Hb). cbn [fst].
  destruct (objs !! k) as [body|] eqn:Hk.
  - rewrite bool_decide_eq_true_2 by eauto.
    repeat split; eauto; intros; discriminate.
  - rewrite bool_decide_eq_false_2 by (by intros [? ?]).
    repeat split; try done; intros [? ?]; discriminate.
Qed.

Lemma hdu_path_ne p n : p +:+ "[" +:+ n +:+ "]" <> p.
Proof.
  intros Heq. apply (f_equal PyStr.len) in Heq.
  rewrite !PyStrFacts.len_app in Heq.
  pose proof (PyStrFacts.len_nonneg n). unfold PyStr.len in *. cbn in Heq. lia.
Qed.

(** C3. [instanceSearch] of [p[n]], with [n] made of digits, returns
    [True] exactly when the bucket holds an object whose key is [p];
    storing or deleting an object under the key [p[n]] itself does not
    change the answer. A path that does not end in []] is looked up as
    it is. *)
Theorem instanceSearch_strips_hdu (self : S3Storage.S3Storage) p n path (w : S3) objs body :
  valid_bucket_name (boto3.name (S3Storage.bucket self)) = true ->
  buckets w !! boto3.name (S3Storage.bucket self) = Some objs ->
  PyStr.forallb urllib.is_digit n = true ->
  PyStr.endswith "]" path = false ->
  ((S3Storage.instanceSearch self (p +:+ "[" +:+ n +:+ "]") w).1 = Ok true
     <-> exists body', objs !! p = Some body')
  /\ ((S3Storage.instanceSearch self (p +:+ "[" +:+ n +:+ "]") w).1 = Ok false
     <-> objs !! p = None)
  /\ (S3Storage.instanceSearch self (p +:+ "[" +:+ n +:+ "]")
        (boto3.set_bucket (boto3.name (S3Storage.bucket self))
           (<[p +:+ "[" +:+ n +:+ "]" := body]> objs) w)).1
     = (S3Storage.instanceSearch self (p +:+ "[" +:+ n +:+ "]") w).1
  /\ (S3Storage.instanceSearch self (p +:+ "[" +:+ n +:+ "]")
        (boto3.set_bucket (boto3.name (S3Storage.bucket self))
           (delete (p +:+ "[" +:+ n +:+ "]") objs) w)).1
     = (S3Storage.instanceSearch self (p +:+ "[" +:+ n +:+ "]") w).1
  /\ S3Storage.instanceSearch self path
     = S3Storage.exists_ self {| pythonType := None; locationList := [path] |}.
Proof.
  intros Hvalid Hb Hn Hpath.
  rewrite !instanceSearch_exists.
  rewrite (strippedPath_bracket p n (digits_no_bracket n Hn)).
  rewrite (strippedPath_unchanged path Hpath).
  rewrite (exists_run self None p [] w objs Hvalid Hb).
  rewrite (exists_run self None p [] _ (<[_ := body]> objs) Hvalid)
    by apply lookup_insert_eq.
  rewrite (exists_run self None p [] _ (delete _ objs) Hvalid)
    by apply lookup_insert_eq.
  cbn [fst].
  rewrite lookup_insert_ne by apply hdu_path_ne.
  rewrite lookup_delete_ne by apply hdu_path_ne.
  destruct (objs !! p) as [body'|] eqn:Hk.
  - rewrite bool_decide_eq_true_2 by eauto.
    repeat split; eauto; intros; discriminate.
  - rewrite bool_decide_eq_false_2 by (by intros [? ?]).
    repeat split; try done; intros [? ?]; discriminate.
Qed.

(** C9. [exists] of a location with no key raises [IndexError] at the
    access to the first key, before any request is sent;
    [instanceSearch] builds its location with one key and never raises
    [IndexError]. *)
Theorem exists_empty_locations_IndexError (self : S3Storage.S3Storage) pt path (w : S3) :
  S3Storage.exists_ self {| pythonType := pt; locationList := [] |} w = (Raise IndexError, w)
  /\ (S3Storage.instanceSearch self path w).1 <> Raise IndexError
  /\ length (getLocations (mkButlerLocation None (Some [S3Storage.strippedPath path]))) = 1%nat.
Proof.
  split; [reflexivity|]. split; [|reflexivity].
  rewrite instanceSearch_exists.
  unfold S3Storage.exists_, getLocations, bind, ret, boto3.objects_filter.
  cbn [locationList].
  destruct (valid_bucket_name _); [|done].
  destruct (buckets w !! _); done.
Qed.

(** C10. The stripping looks only at the final []] and at the last
    [[]: from a path [a[b]], whatever [b] is, the search is for [a];
    from a path [c]] with no [[] at all, the search is for [c]. *)
Theorem strippedPath_last_bracket_only (self : S3Storage.S3Storage) a b c :
  PyStr.contains "[" b = false ->
  PyStr.contains "[" c = false ->
  S3Storage.strippedPath (a +:+ "[" +:+ b +:+ "]") = a
  /\ S3Storage.instanceSearch self (a +:+ "[" +:+ b +:+ "]")
     = S3Storage.exists_ self {| pythonType := None; locationList := [a] |}
  /\ S3Storage.strippedPath (c +:+ "]") = c
  /\ S3Storage.instanceSearch self (c +:+ "]")
     = S3Storage.exists_ self {| pythonType := None; locationList := [c] |}.
Proof.
  intros Hb Hc. rewrite !instanceSearch_exists.
  rewrite (strippedPath_bracket a b Hb), (strippedPath_no_bracket c Hc). done.
Qed.

End search_claims.

(** ** Formatter dispatch *)

Section dispatch_claims.
Context `{Collaborators}.
Import dafPersist.

(** C6. Without a write formatter for the type of the object, [write]
    raises its [RuntimeError] and the store is as it was, with no
    request sent; the same holds for [read] and the type of the
    location. With a formatter registered, [write] and [read] are the
    formatter applied to the bucket, the location and (to write) the
    object: same result, same effect on the store. *)
Theorem dispatch_by_type (formatters : Formatters) (self : S3Storage.S3Storage)
    (butlerLocation : ButlerLocation) (obj : Value) (w : S3) :
  (getWriteFormatter formatters (type_of obj) = None ->
     S3Storage.write formatters self butlerLocation obj w
     = (Raise (RuntimeError NoWriteFormatter), w))
  /\ (getReadFormatter formatters (getPythonType butlerLocation) = None ->
     S3Storage.read formatters self butlerLocation w
     = (Raise (RuntimeError NoReadFormatter), w))
  /\ (forall writeFormatter,
     getWriteFormatter formatters (type_of obj) = Some writeFormatter ->
     S3Storage.write formatters self butlerLocation obj
     = writeFormatter (S3Storage.bucket self) butlerLocation obj)
  /\ (forall readFormatter,
     getReadFormatter formatters (getPythonType butlerLocation) = Some readFormatter ->
     S3Storage.read formatters self butlerLocation
     = readFormatter (S3Storage.bucket self) butlerLocation).
Proof.
  unfold S3Storage.write, S3Storage.read.
  repeat split.
  - by intros ->.
  - by intros ->.
  - by intros wf ->.
  - by intros rf ->.
Qed.

End dispatch_claims.

(** ** Addresses *)

Section addresses.
Context `{Collaborators}.
Import PyStr PyStrFacts.

(** A scheme other than [http], followed by a colon and by text that
    is not a port number, is split off and lower-cased. *)
Lemma split_scheme_colon pre rest :
  contains ":" pre = false ->
  0 < len pre ->
  String.eqb pre "http" = false ->
  forallb urllib.is_scheme_char pre = true ->
  String.eqb rest "" || negb (forallb urllib.is_digit rest) = true ->
  urllib.split_scheme (pre +:+ ":" +:+ rest) = (lower pre, rest).
Proof.
  intros Hcolon Hlen Hhttp Hchars Hrest.
  unfold urllib.split_scheme.
  rewrite app_cons, app_nil.
  rewrite (find_app ":" pre rest Hcolon).
  destruct (Z.ltb_spec 0 (len pre)); [|lia].
  rewrite slice_to_app, Hhttp, Hchars.
  replace (pre +:+ String ":" rest) with ((pre +:+ ":") +:+ rest)
    by (by rewrite app_assoc).
  replace (len pre + 1) with (len (pre +:+ ":"))
    by (rewrite len_app; reflexivity).
  by rewrite slice_from_app, Hrest.
Qed.

Lemma bucket_char_not_delimiter a :
  botocore.is_bucket_char a = true -> negb (urllib.is_netloc_end a) = true.
Proof.
  destruct a as [[] [] [] [] [] [] [] []]; vm_compute; congruence.
Qed.

Lemma bucket_chars_clean b c :
  botocore.is_bucket_char c = false ->
  forallb botocore.is_bucket_char b = true -> contains c b = false.
Proof. apply forallb_not_contains. Qed.

Lemma contains_slashes c k b :
  c <> "/"%char -> contains c (slashes k +:+ b) = contains c b.
Proof.
  intros Hc. induction k as [|k IH]; [done|].
  cbn [slashes]. rewrite app_cons. cbn [contains].
  destruct (Ascii.eqb_spec "/" c); [congruence | done].
Qed.

Lemma lstrip_slashes k b : lstrip "/" (slashes k +:+ b) = lstrip "/" b.
Proof. induction k as [|k IH]; [done|]. cbn [slashes]. by rewrite app_cons. Qed.

(** The parse of [sch://] followed by [k] more slashes and a bucket
    name: the name is the authority when [k = 0], and otherwise it is
    in the path, after the slashes. *)
Lemma urlparse_bucket sch k b :
  sch = "s3" \/ sch = "S3" ->
  forallb botocore.is_bucket_char b = true ->
  urllib.urlparse (sch +:+ "://" +:+ slashes k +:+ b)
  = Some {| urllib.scheme := "s3";
            urllib.netloc := match k with O => b | S _ => "" end;
            urllib.path := match k with O => "" | S _ => slashes k +:+ b end;
            urllib.query := ""; urllib.fragment := "" |}.
Proof.
  intros Hsch Hb. unfold urllib.urlparse.
  replace (sch +:+ "://" +:+ slashes k +:+ b)
    with (sch +:+ ":" +:+ "//" +:+ slashes k +:+ b) by done.
  rewrite split_scheme_colon; [|by destruct Hsch as [-> | ->]..].
  replace (lower sch) with "s3" by (by destruct Hsch as [-> | ->]).
  change ("//" +:+ slashes k +:+ b) with ("//" +:+ (slashes k +:+ b)).
  rewrite (slice_to_app "//" (slashes k +:+ b)
           : slice_to ("//" +:+ (slashes k +:+ b)) 2 = "//").
  change (String.eqb "//" "//") with true. cbv iota.
  unfold urllib.splitnetloc.
  change (drop 2 ("//" +:+ (slashes k +:+ b))) with (slashes k +:+ b).
  pose proof (bucket_chars_clean b "[" eq_refl Hb) as Hopen.
  pose proof (bucket_chars_clean b "]" eq_refl Hb) as Hclose.
  pose proof (bucket_chars_clean b "#" eq_refl Hb) as Hhash.
  pose proof (bucket_chars_clean b "?" eq_refl Hb) as Hquery.
  destruct k as [|k].
  - rewrite app_nil.
    rewrite span_all by (eapply forallb_impl; [apply bucket_char_not_delimiter | done]).
    unfold urllib.bad_brackets. rewrite Hopen, Hclose. reflexivity.
  - cbn [slashes]. rewrite app_cons.
    change (span _ (String "/" ?s)) with ("", String "/" s).
    cbv beta iota.
    change (urllib.bad_brackets "") with false. cbv iota.
    change (String "/" (slashes k +:+ b)) with (slashes (S k) +:+ b).
    rewrite contains_slashes, Hhash by done. cbv beta iota.
    by rewrite contains_slashes, Hquery.
Qed.

Lemma parseBucketName_bucket sch k b :
  sch = "s3" \/ sch = "S3" ->
  forallb botocore.is_bucket_char b = true ->
  S3Storage.parseBucketName (sch +:+ "://" +:+ slashes k +:+ b) = Ok b.
Proof.
  intros Hsch Hb. unfold S3Storage.parseBucketName.
  rewrite (urlparse_bucket sch k b Hsch Hb). cbn [urllib.scheme urllib.netloc urllib.path].
  change (negb (String.eqb (upper "s3") "S3")) with false. cbv iota.
  pose proof (bucket_chars_clean b "/" eq_refl Hb) as Hslash.
  destruct k as [|k].
  - destruct (String.eqb_spec b "") as [->|_]; [done|].
    by rewrite lstrip_keep.
  - change (String.eqb "" "") with true. cbv iota.
    by rewrite lstrip_slashes, lstrip_keep.
Qed.

End addresses.

(** ** Construction *)

Section construction.
Context `{Collaborators}.
Import dafPersist.

Lemma create_bucket_run b w :
  valid_bucket_name b = true ->
  boto3.create_bucket b w = (Ok tt, created b w).
Proof.
  intros Hb. unfold boto3.create_bucket, created, objects. rewrite Hb.
  destruct (buckets w !! b) as [objs|] eqn:Hw; cbn [default]; [|done].
  f_equal. unfold boto3.set_bucket, boto3.send. cbn.
  f_equal. by rewrite insert_id.
Qed.

Lemma created_lookup b w : buckets (created b w) !! b = Some (objects w b).
Proof. apply lookup_insert_eq. Qed.

Lemma created_objects b w : objects (created b w) b = objects w b.
Proof. unfold objects at 1. by rewrite created_lookup. Qed.

(** [_bucketExists] asks about a bucket named like its argument. It
    answers [False] exactly when that name fails the client's check,
    answers [True] when such a bucket is there, and lets the
    [ClientError] through when it is not. *)
Lemma bucketExists_run uri w :
  S3Storage._bucketExists uri w
  = if valid_bucket_name uri then
      match buckets w !! uri with
      | Some _ => (Ok true, boto3.send (HeadBucket uri) w)
      | None => (Raise (ClientError "404"), boto3.send (HeadBucket uri) w)
      end
    else (Ok false, w).
Proof.
  unfold S3Storage._bucketExists, try_except, bind, ret, boto3.head_bucket.
  destruct (valid_bucket_name uri); [|done].
  by destruct (buckets w !! uri).
Qed.

(** Whatever [__init__] returns is the backend of the bucket name
    parsed from the URI. *)
Lemma init_returns_backend uri create w self w' :
  S3Storage.__init__ uri create w = (Ok self, w') ->
  exists b, S3Storage.parseBucketName uri = Ok b /\ self = backend b.
Proof.
  unfold S3Storage.__init__, bind, lift, ret, raise.
  destruct (S3Storage.parseBucketName uri) as [b|e]; [|done].
  destruct (S3Storage._bucketExists uri w) as [[[] | e] w1]; [| |done].
  - intros [= <- <-]. by exists b.
  - destruct create; [|done].
    destruct (boto3.create_bucket b w1) as [[[]|e] w2]; [|done].
    intros [= <- <-]. by exists b.
Qed.

(** With [create=False], [__init__] returns only when the store holds
    a bucket whose name is the URI itself. *)
Lemma init_no_create_needs_uri_bucket uri w self w' :
  S3Storage.__init__ uri false w = (Ok self, w') -> is_Some (buckets w !! uri).
Proof.
  unfold S3Storage.__init__, bind, lift, ret, raise.
  destruct (S3Storage.parseBucketName uri) as [b|e]; [|done].
  rewrite bucketExists_run.
  destruct (valid_bucket_name uri); [|done].
  destruct (buckets w !! uri); [eauto | done].
Qed.

(** With [create=True], a URI that is no valid bucket name and a
    bucket name that is one: the bucket is created, or found, and the
    backend returned. *)
Lemma init_create_run uri b w :
  S3Storage.parseBucketName uri = Ok b ->
  valid_bucket_name uri = false ->
  valid_bucket_name b = true ->
  S3Storage.__init__ uri true w = (Ok (backend b), created b w).
Proof.
  intros Hparse Huri Hb.
  unfold S3Storage.__init__, bind, lift, ret.
  rewrite Hparse, bucketExists_run, Huri, create_bucket_run by done. done.
Qed.

Lemma init_no_create_run uri b w :
  S3Storage.parseBucketName uri = Ok b ->
  valid_bucket_name uri = false ->
  S3Storage.__init__ uri false w = (Raise (NoRepositroyAtRoot uri), w).
Proof.
  intros Hparse Huri.
  unfold S3Storage.__init__, bind, lift, ret, raise.
  by rewrite Hparse, bucketExists_run, Huri.
Qed.

Lemma upper_lower_S a :
  PyStr.upper_char (PyStr.lower_char a) = "S"%char -> PyStr.lower_char a = "s"%char.
Proof.
  destruct a as [[] [] [] [] [] [] [] []]; vm_compute; intros;
    first [reflexivity | discriminate].
Qed.

Lemma upper_lower_3 a :
  PyStr.upper_char (PyStr.lower_char a) = "3"%char -> PyStr.lower_char a = "3"%char.
Proof.
  destruct a as [[] [] [] [] [] [] [] []]; vm_compute; intros;
    first [reflexivity | discriminate].
Qed.

Lemma upper_lower_S3 t : PyStr.upper (PyStr.lower t) = "S3" -> PyStr.lower t = "s3".
Proof.
  destruct t as [|a [|a' [|a'' t]]]; cbn; try discriminate.
  intros [= Ha Ha']. by rewrite (upper_lower_S a Ha), (upper_lower_3 a' Ha').
Qed.

Lemma split_scheme_lower url : exists t, (urllib.split_scheme url).1 = PyStr.lower t.
Proof.
  unfold urllib.split_scheme.
  repeat match goal with
         | |- context [if ?c then _ else _] => destruct c
         end; cbn [fst]; first [by eexists | by exists ""].
Qed.

Lemma urlparse_scheme uri r :
  urllib.urlparse uri = Some r -> urllib.scheme r = (urllib.split_scheme uri).1.
Proof.
  unfold urllib.urlparse.
  destruct (urllib.split_scheme uri) as [sch url].
  repeat match goal with
         | |- context [if ?c then _ else _] => destruct c
         | |- context [let '(_, _) := ?p in _] => destruct p
         end; try discriminate; by intros [= <-].
Qed.

(** A URI that [__init__] accepts has the scheme [s3] once parsed, so
    [makeFromURI] finds the class registered for it. *)
Lemma makeFromURI_init uri b create :
  S3Storage.parseBucketName uri = Ok b ->
  S3Storage.makeFromURI uri create = S3Storage.__init__ uri create.
Proof.
  unfold S3Storage.parseBucketName, S3Storage.makeFromURI.
  destruct (urllib.urlparse uri) as [r|] eqn:Hr; [|done].
  destruct (String.eqb_spec (PyStr.upper (urllib.scheme r)) "S3") as [Hs|]; [|done].
  intros _.
  destruct (split_scheme_lower uri) as [t Ht].
  rewrite (urlparse_scheme uri r Hr), Ht in Hs |- *.
  rewrite (upper_lower_S3 t Hs). done.
Qed.

(** [makeFromURI] never raises [NoRepositroyAtRoot] when it may
    create the bucket. *)
Lemma makeFromURI_create_not_NoRepo uri w u :
  (S3Storage.makeFromURI uri true w).1 <> Raise (NoRepositroyAtRoot u).
Proof.
  unfold S3Storage.makeFromURI, S3Storage.__init__, bind, lift, ret, raise.
  destruct (urllib.urlparse uri) as [r|]; [|done].
  destruct (bool_decide _); [|done].
  destruct (S3Storage.parseBucketName uri) as [b|e] eqn:Hb.
  - rewrite bucketExists_run.
    destruct (valid_bucket_name uri).
    + by destruct (buckets w !! uri).
    + unfold boto3.create_bucket.
      destruct (valid_bucket_name b); [|done].
      by destruct (buckets w !! b).
  - cbn. intros [= ->].
    unfold S3Storage.parseBucketName in Hb.
    destruct (urllib.urlparse uri); [|done].
    by destruct (negb _).
Qed.

End construction.

Section address_claims.
Context `{Collaborators}.

(** C7. For a bucket name [b], the URIs [s3://b] and [s3:///b] (and
    any number of further slashes) give the bucket name [b], from the
    authority in the first form and from the path without its leading
    slashes in the others; [S3://b] gives it too. A backend
    constructed from any of them is the backend of [b]. *)
Theorem slash_count_equivalence (b : string) :
  PyStr.forallb botocore.is_bucket_char b = true ->
  S3Storage.parseBucketName ("s3://" +:+ b) = Ok b
  /\ S3Storage.parseBucketName ("s3:///" +:+ b) = Ok b
  /\ S3Storage.parseBucketName ("S3://" +:+ b) = Ok b
  /\ (forall k, S3Storage.parseBucketName ("s3://" +:+ slashes k +:+ b) = Ok b)
  /\ (urllib.netloc <$> urllib.urlparse ("s3://" +:+ b)) = Some b
  /\ (urllib.path <$> urllib.urlparse ("s3:///" +:+ b)) = Some ("/" +:+ b)
  /\ (forall uri create w self w',
        uri ∈ ["s3://" +:+ b; "s3:///" +:+ b; "S3://" +:+ b] ->
        S3Storage.__init__ uri create w = (Ok self, w') ->
        self = backend b).
Proof.
  intros Hb.
  pose proof (parseBucketName_bucket "s3" 0 b (or_introl eq_refl) Hb) as H2.
  pose proof (parseBucketName_bucket "s3" 1 b (or_introl eq_refl) Hb) as H3.
  pose proof (parseBucketName_bucket "S3" 0 b (or_intror eq_refl) Hb) as HS.
  split; [exact H2|]. split; [exact H3|]. split; [exact HS|].
  split; [intros k; exact (parseBucketName_bucket "s3" k b (or_introl eq_refl) Hb)|].
  split; [exact (f_equal (fmap urllib.netloc)
                   (urlparse_bucket "s3" 0 b (or_introl eq_refl) Hb))|].
  split; [exact (f_equal (fmap urllib.path)
                   (urlparse_bucket "s3" 1 b (or_introl eq_refl) Hb))|].
  intros uri create w self w' Huri Hinit.
  destruct (init_returns_backend uri create w self w' Hinit) as (b' & Hparse & ->).
  f_equal.
  repeat (apply elem_of_cons in Huri as [-> | Huri]); [..|by apply elem_of_nil in Huri].
  - injection (eq_trans (eq_sym H2) Hparse) as Heq. congruence.
  - injection (eq_trans (eq_sym H3) Hparse) as Heq. congruence.
  - injection (eq_trans (eq_sym HS) Hparse) as Heq. congruence.
Qed.

End address_claims.

(** ** The repository configuration *)

Section configuration.
Context `{Collaborators}.
Import dafPersist fmtRepositoryCfg.

Lemma objects_send c w b : objects (boto3.send c w) b = objects w b.
Proof. reflexivity. Qed.

Lemma objects_set_bucket b objs w : objects (boto3.set_bucket b objs w) b = objs.
Proof. unfold objects, boto3.set_bucket. cbn. by rewrite lookup_insert_eq. Qed.

Lemma put_object_run b key body w objs :
  valid_bucket_name b = true ->
  buckets w !! b = Some objs ->
  boto3.put_object {| boto3.name := b |} key body w
  = (Ok tt, boto3.set_bucket b (<[key := body]> objs) (boto3.send (PutObject b key) w)).
Proof. intros Hb Hw. unfold boto3.put_object. cbn [boto3.name]. by rewrite Hb, Hw. Qed.

Lemma download_file_run b key w objs :
  valid_bucket_name b = true ->
  buckets w !! b = Some objs ->
  boto3.download_file {| boto3.name := b |} key w
  = (match objs !! key with
     | Some body => Ok body
     | None => Raise (ClientError "404")
     end, boto3.send (DownloadFile b key) w).
Proof.
  intros Hb Hw. unfold boto3.download_file. cbn [boto3.name]. rewrite Hb, Hw. cbn.
  by destruct (objs !! key).
Qed.

Lemma copy_run b src dst w objs :
  valid_bucket_name b = true ->
  buckets w !! b = Some objs ->
  boto3.copy {| boto3.name := b |} (b, src) dst w
  = match objs !! src with
    | Some body => (Ok tt, boto3.set_bucket b (<[dst := body]> objs)
                             (boto3.send (CopyObject b src b dst) w))
    | None => (Raise (ClientError "404"), boto3.send (CopyObject b src b dst) w)
    end.
Proof.
  intros Hb Hw. unfold boto3.copy. cbn [boto3.name]. rewrite Hb, Hw. cbn.
  by destruct (objs !! src).
Qed.

(** The reader of the configuration: absent key, no value. *)
Lemma readRepositoryCfg_run b loc w objs :
  valid_bucket_name b = true ->
  buckets w !! b = Some objs ->
  readRepositoryCfg {| boto3.name := b |} loc w
  = (match objs !! remoteCfgName with
     | Some j => match yaml_load j with
                 | Some cfg => Ok cfg
                 | None => Raise DecodeError
                 end
     | None => Ok PyNone
     end, boto3.send (DownloadFile b remoteCfgName) w).
Proof.
  intros Hb Hw. unfold readRepositoryCfg, bind, try_except, ret, raise.
  rewrite (download_file_run b _ w objs Hb Hw).
  fold remoteCfgName.
  destruct (objs !! remoteCfgName) as [j|]; [|done].
  by destruct (yaml_load j).
Qed.

(** The reader raises nothing but what the client's check of the
    bucket name and the decoder raise. *)
Lemma readRepositoryCfg_raises bucket loc w e :
  (readRepositoryCfg bucket loc w).1 = Raise e ->
  e = ParamValidationError \/ e = DecodeError.
Proof.
  unfold readRepositoryCfg, bind, try_except, ret, raise, boto3.download_file.
  destruct (valid_bucket_name _); [|intros [= <-]; by left].
  destruct (_ ≫= _) as [j|]; cbn; [|done].
  destruct (yaml_load j); [done | intros [= <-]; by right].
Qed.

Section registered.
Variable formatters : Formatters.
Hypothesis Hread :
  getReadFormatter formatters (Some RepositoryCfg) = Some readRepositoryCfg.

Lemma getRepositoryCfg_run uri b w :
  S3Storage.parseBucketName uri = Ok b ->
  valid_bucket_name uri = false ->
  valid_bucket_name b = true ->
  S3Storage.getRepositoryCfg formatters uri w
  = (match objects w b !! remoteCfgName with
     | Some j => match yaml_load j with
                 | Some cfg => Ok cfg
                 | None => Raise DecodeError
                 end
     | None => Ok PyNone
     end, boto3.send (DownloadFile b remoteCfgName) (created b w)).
Proof.
  intros Hparse Huri Hb.
  unfold S3Storage.getRepositoryCfg, bind.
  rewrite (makeFromURI_init uri b true Hparse), (init_create_run uri b w Hparse Huri Hb).
  unfold S3Storage.read, mkButlerLocation, getPythonType. cbn [pythonType].
  rewrite Hread. cbn [S3Storage.bucket backend].
  by rewrite (readRepositoryCfg_run b _ _ (objects w b) Hb (created_lookup b w)).
Qed.

Lemma getRepositoryCfg_not_NoRepo uri w u :
  (S3Storage.getRepositoryCfg formatters uri w).1 <> Raise (NoRepositroyAtRoot u).
Proof.
  unfold S3Storage.getRepositoryCfg, bind.
  pose proof (makeFromURI_create_not_NoRepo uri w u) as Hmake.
  destruct (S3Storage.makeFromURI uri true w) as [[storage|e] w1];
    [|cbn in *; congruence].
  unfold S3Storage.read, mkButlerLocation, getPythonType. cbn [pythonType].
  rewrite Hread. intros Hraise.
  by destruct (readRepositoryCfg_raises _ _ _ _ Hraise).
Qed.

(** What [getMapperClass] does with the answer of
    [getRepositoryCfg]. *)
Lemma getMapperClass_run root w :
  S3Storage.getMapperClass formatters root w
  = match S3Storage.getRepositoryCfg formatters root w with
    | (Ok PyNone, w') => (Raise (NoRepositroyAtRoot root), w')
    | (Ok (PyVal cfg), w') =>
        (match cfg_mapper cfg with
         | Some mapper => Ok mapper
         | None => Raise AttributeError
         end, w')
    | (Ok (PyList _), w') => (Raise AttributeError, w')
    | (Raise e, w') => (Raise e, w')
    end.
Proof.
  unfold S3Storage.getMapperClass, bind, raise, ret.
  destruct (S3Storage.getRepositoryCfg formatters root w) as [[[|cfg|l]|e] w']; try done.
  by destruct (cfg_mapper cfg).
Qed.

(** C8. [getMapperClass] raises [NoRepositroyAtRoot] exactly when
    [getRepositoryCfg] returns [None], and returns the [mapper] of
    the configuration that [getRepositoryCfg] returns otherwise;
    [getRepositoryCfg] returns [None], and raises nothing, when the
    bucket of the root holds no object under the configuration
    key. *)
Theorem getMapperClass_NoRepositroyAtRoot root w :
  ((exists uri, (S3Storage.getMapperClass formatters root w).1 = Raise (NoRepositroyAtRoot uri))
     <-> (S3Storage.getRepositoryCfg formatters root w).1 = Ok PyNone)
  /\ ((S3Storage.getRepositoryCfg formatters root w).1 = Ok PyNone ->
      (S3Storage.getMapperClass formatters root w).1 = Raise (NoRepositroyAtRoot root))
  /\ (forall cfg mapper,
      (S3Storage.getRepositoryCfg formatters root w).1 = Ok (PyVal cfg) ->
      cfg_mapper cfg = Some mapper ->
      (S3Storage.getMapperClass formatters root w).1 = Ok mapper)
  /\ (forall b,
      S3Storage.parseBucketName root = Ok b ->
      valid_bucket_name root = false ->
      valid_bucket_name b = true ->
      objects w b !! remoteCfgName = None ->
      (S3Storage.getRepositoryCfg formatters root w).1 = Ok PyNone).
Proof.
  rewrite getMapperClass_run.
  pose proof (getRepositoryCfg_not_NoRepo root w) as Hno.
  split; [|split; [|split]].
  - destruct (S3Storage.getRepositoryCfg formatters root w) as [[[|cfg|l]|e] w'];
      cbn [fst] in *.
    + split; [done | intros _; by exists root].
    + split; [|discriminate]. intros [uri Huri].
      destruct (cfg_mapper cfg); discriminate.
    + split; [|discriminate]. intros [uri Huri]. discriminate.
    + split; [|discriminate]. intros [uri [= ->]]. by destruct (Hno uri).
  - destruct (S3Storage.getRepositoryCfg formatters root w) as [[[|cfg|l]|e] w'];
      cbn [fst]; first [done | discriminate].
  - intros cfg mapper.
    destruct (S3Storage.getRepositoryCfg formatters root w) as [[[|cfg0|l]|e] w'];
      cbn [fst]; try done.
    by intros [= ->] ->.
  - intros b Hparse Huri Hb Hkey.
    by rewrite (getRepositoryCfg_run root b w Hparse Huri Hb), Hkey.
Qed.

Hypothesis Hwrite :
  getWriteFormatter formatters RepositoryCfg = Some writeRepositoryCfg.

Lemma putRepositoryCfg_run cfg uri b w :
  type_of cfg = RepositoryCfg ->
  cfg_root cfg = Some uri ->
  S3Storage.parseBucketName uri = Ok b ->
  valid_bucket_name uri = false ->
  valid_bucket_name b = true ->
  S3Storage.putRepositoryCfg formatters cfg None w
  = (Ok tt, boto3.set_bucket b (<[remoteCfgName := yaml_dump cfg]> (objects w b))
              (boto3.send (PutObject b remoteCfgName) (created b w))).
Proof.
  intros Htype Hroot Hparse Huri Hb.
  unfold S3Storage.putRepositoryCfg, bind. rewrite Hroot. unfold ret at 1.
  rewrite (makeFromURI_init uri b true Hparse), (init_create_run uri b w Hparse Huri Hb).
  unfold S3Storage.write. rewrite Htype, Hwrite.
  unfold writeRepositoryCfg. cbn [S3Storage.bucket backend].
  by rewrite (put_object_run b _ _ _ (objects w b) Hb (created_lookup b w)).
Qed.

(** C4. For a configuration whose root is an S3 address and that
    the YAML codec gives back as it was, [putRepositoryCfg(cfg)]
    followed by [getRepositoryCfg(cfg.root)] returns [cfg]; after a
    second [putRepositoryCfg] of a changed configuration with the
    same root, [getRepositoryCfg] returns the changed one. *)
Theorem putRepositoryCfg_getRepositoryCfg cfg cfg' root b w :
  type_of cfg = RepositoryCfg ->
  type_of cfg' = RepositoryCfg ->
  cfg_root cfg = Some root ->
  cfg_root cfg' = Some root ->
  S3Storage.parseBucketName root = Ok b ->
  valid_bucket_name root = false ->
  valid_bucket_name b = true ->
  yaml_load (yaml_dump cfg) = Some (PyVal cfg) ->
  yaml_load (yaml_dump cfg') = Some (PyVal cfg') ->
  (cfg_scenario formatters root cfg cfg' w).1 = Ok (PyVal cfg, PyVal cfg').
Proof.
  intros Htype Htype' Hroot Hroot' Hparse Huri Hb Hyaml Hyaml'.
  unfold cfg_scenario, bind.
  rewrite (putRepositoryCfg_run cfg root b w) by done.
  rewrite (getRepositoryCfg_run root b _ Hparse Huri Hb).
  rewrite objects_set_bucket, lookup_insert_eq, Hyaml.
  rewrite (putRepositoryCfg_run cfg' root b _) by done.
  rewrite (getRepositoryCfg_run root b _ Hparse Huri Hb).
  by rewrite objects_set_bucket, lookup_insert_eq, Hyaml'.
Qed.

End registered.
End configuration.

(** ** Copies *)

Section copies.
Context `{Collaborators}.
Import dafPersist test_basics.

Lemma writeMyTestObject_run b pt key rest obj w objs :
  valid_bucket_name b = true ->
  buckets w !! b = Some objs ->
  writeMyTestObject {| boto3.name := b |} {| pythonType := pt; locationList := key :: rest |} obj w
  = (Ok tt, boto3.set_bucket b (<[key := pickle_dump obj]> objs)
              (boto3.send (PutObject b key) w)).
Proof. intros Hb Hw. unfold writeMyTestObject. cbn. by apply put_object_run. Qed.

Lemma readMyTestObject_run b pt key rest w objs :
  valid_bucket_name b = true ->
  buckets w !! b = Some objs ->
  readMyTestObject {| boto3.name := b |} {| pythonType := pt; locationList := key :: rest |} w
  = (match objs !! key with
     | Some f => match pickle_load f with
                 | Some obj => Ok (PyList [obj])
                 | None => Raise DecodeError
                 end
     | None => Ok PyNone
     end, boto3.send (DownloadFile b key) w).
Proof.
  intros Hb Hw. unfold readMyTestObject, bind, try_except, ret, raise. cbn.
  rewrite (download_file_run b key w objs Hb Hw).
  destruct (objs !! key) as [f|]; [|done].
  by destruct (pickle_load f).
Qed.

(** The bucket just written, looked up through the requests sent
    since. *)
Ltac store_lookup :=
  unfold boto3.send, boto3.set_bucket; cbn [buckets]; apply lookup_insert_eq.

(** C5, as amended. For a type whose registered formatters store and
    fetch the object under the first key of the location, as those of
    the tests do: after [write] of [v] at [A] and [copyFile(A, A_copy)],
    [read] at [A_copy] gives [v], and it still gives [v] after a later
    [write] of another object at [A]. *)
Theorem copyFile_snapshot (formatters : Formatters) (T : PyType) (v v' : Value)
    (b A A_copy : string) restA restC (w : S3) objs :
  type_of v = T ->
  getWriteFormatter formatters T = Some writeMyTestObject ->
  getReadFormatter formatters (Some T) = Some readMyTestObject ->
  getWriteFormatter formatters (type_of v') = Some writeMyTestObject ->
  pickle_load (pickle_dump v) = Some v ->
  A <> A_copy ->
  valid_bucket_name b = true ->
  buckets w !! b = Some objs ->
  (copy_scenario formatters (backend b)
     {| pythonType := Some T; locationList := A :: restA |}
     {| pythonType := Some T; locationList := A_copy :: restC |}
     A A_copy v v' w).1
  = Ok (PyList [v], PyList [v]).
Proof.
  intros HT Hwrite Hread Hwrite' Hpickle Hne Hb Hw.
  unfold copy_scenario, bind, S3Storage.write, S3Storage.read, S3Storage.copyFile.
  unfold getPythonType. cbn [pythonType S3Storage.bucket S3Storage.bucketName backend].
  rewrite HT, Hwrite, Hread, Hwrite'.
  rewrite (writeMyTestObject_run b _ A restA v w objs Hb Hw).
  erewrite copy_run by first [done | store_lookup].
  rewrite lookup_insert_eq.
  erewrite readMyTestObject_run by first [done | store_lookup].
  rewrite lookup_insert_eq, Hpickle.
  erewrite writeMyTestObject_run by first [done | store_lookup].
  erewrite readMyTestObject_run by first [done | store_lookup].
  rewrite lookup_insert_ne by done.
  by rewrite lookup_insert_eq, Hpickle.
Qed.

End copies.

(** * Further properties *)

(** ** More on strings and addresses *)

Section more_addresses.
Context `{Collaborators}.
Import PyStr PyStrFacts.

Lemma find_absent c s : contains c s = false -> find c s = -1.
Proof.
  induction s as [|x s IH]; cbn; [done|].
  destruct (Ascii.eqb x c); [done|]. intros Hs. by rewrite (IH Hs).
Qed.

Lemma split_scheme_no_colon url :
  contains ":" url = false -> urllib.split_scheme url = ("", url).
Proof. intros Hc. unfold urllib.split_scheme. by rewrite (find_absent _ _ Hc). Qed.

Lemma span_app_stop p a x r :
  forallb p a = true -> p x = false -> span p (a +:+ String x r) = (a, String x r).
Proof.
  intros Ha Hx. induction a as [|y a IH].
  - rewrite app_nil. cbn. by rewrite Hx.
  - rewrite app_cons. cbn in Ha |- *.
    apply andb_prop in Ha as [-> Ha]. by rewrite (IH Ha).
Qed.

Lemma take_prefix n s : String.prefix (take n s) s = true.
Proof.
  revert n. induction s as [|x s IH]; intros [|n]; cbn; try done.
  destruct (ascii_dec x x); [apply IH | congruence].
Qed.

Lemma take_length n s : (String.length (take n s) = Nat.min n (String.length s))%nat.
Proof.
  revert n. induction s as [|x s IH]; intros [|n]; cbn; try done.
  by rewrite IH.
Qed.

Lemma rfind_from_range c s i last :
  rfind_from c s i last = last
  \/ (i <= rfind_from c s i last < i + len s).
Proof.
  revert i last. induction s as [|x s IH]; intros i last; cbn [rfind_from]; [by left|].
  rewrite len_cons. pose proof (len_nonneg s).
  destruct (IH (i + 1) (if Ascii.eqb x c then i else last)) as [-> | Hr].
  - destruct (Ascii.eqb x c); [right; lia | by left].
  - right. lia.
Qed.

Lemma endswith_nonempty c s : endswith c s = true -> 0 < len s.
Proof.
  destruct s; [done|]. intros _. rewrite len_cons. pose proof (len_nonneg s). lia.
Qed.

(** The parse of [s3://] followed by an authority [a] of bucket-name
    characters and by a rest [r] that is empty or starts with a slash
    and holds no [#] and no [?]. *)
Lemma urlparse_s3 a r :
  forallb botocore.is_bucket_char a = true ->
  r = "" \/ (exists r', r = String "/" r') ->
  contains "#" r = false ->
  contains "?" r = false ->
  urllib.urlparse ("s3://" +:+ a +:+ r)
  = Some {| urllib.scheme := "s3"; urllib.netloc := a; urllib.path := r;
            urllib.query := ""; urllib.fragment := "" |}.
Proof.
  intros Ha Hr Hhash Hquery. unfold urllib.urlparse.
  replace ("s3://" +:+ a +:+ r) with ("s3" +:+ ":" +:+ "//" +:+ (a +:+ r)) by done.
  rewrite split_scheme_colon by done.
  change (lower "s3") with "s3".
  rewrite (slice_to_app "//" (a +:+ r) : slice_to ("//" +:+ (a +:+ r)) 2 = "//").
  change (String.eqb "//" "//") with true. cbv iota.
  unfold urllib.splitnetloc.
  change (drop 2 ("//" +:+ (a +:+ r))) with (a +:+ r).
  assert (span (fun c => negb (urllib.is_netloc_end c)) (a +:+ r) = (a, r)) as ->.
  { pose proof (forallb_impl _ _ a bucket_char_not_delimiter Ha) as Ha'.
    destruct Hr as [-> | [r' ->]].
    - replace (a +:+ "") with a; [by apply span_all|].
      clear. induction a as [|x a IH]; [done|]. by rewrite app_cons, <- IH.
    - by apply span_app_stop. }
  unfold urllib.bad_brackets.
  rewrite (bucket_chars_clean a "[" eq_refl Ha), (bucket_chars_clean a "]" eq_refl Ha).
  cbn [andb orb negb]. by rewrite Hhash, Hquery.
Qed.

(** X1. A URI without a colon has no scheme: [__init__] raises, either
    the parser's [ValueError] or the [RuntimeError] about the scheme,
    and the store is as it was, with no request sent. *)
Theorem init_without_colon_raises (uri : string) (create : bool) (w : S3) :
  contains ":" uri = false ->
  exists e,
    S3Storage.__init__ uri create w = (Raise e, w)
    /\ (e = ValueError \/ e = RuntimeError (UnsupportedScheme "")).
Proof.
  intros Hc.
  unfold S3Storage.__init__, bind, lift, S3Storage.parseBucketName.
  destruct (urllib.urlparse uri) as [r|] eqn:Hr.
  - rewrite (urlparse_scheme uri r Hr), (split_scheme_no_colon uri Hc). cbn.
    eexists. split; [reflexivity | by right].
  - eexists. split; [reflexivity | by left].
Qed.

(** X2. After the bucket name, a path is dropped in the two-slash form
    and kept in the three-slash form: [s3://b/p] gives the bucket name
    [b], and [s3:///b/p] gives [b/p]. *)
Theorem parseBucketName_trailing_path (b p : string) :
  forallb botocore.is_bucket_char b = true ->
  String.eqb b "" = false ->
  contains "#" p = false ->
  contains "?" p = false ->
  S3Storage.parseBucketName ("s3://" +:+ b +:+ "/" +:+ p) = Ok b
  /\ S3Storage.parseBucketName ("s3:///" +:+ b +:+ "/" +:+ p) = Ok (b +:+ "/" +:+ p).
Proof.
  intros Hb Hne Hhash Hquery.
  pose proof (bucket_chars_clean b "/" eq_refl Hb) as Hslash.
  pose proof (bucket_chars_clean b "#" eq_refl Hb) as Hbhash.
  pose proof (bucket_chars_clean b "?" eq_refl Hb) as Hbquery.
  unfold S3Storage.parseBucketName. split.
  - rewrite (urlparse_s3 b ("/" +:+ p) Hb) by (cbn; eauto).
    cbn [urllib.scheme urllib.netloc urllib.path].
    change (negb (String.eqb (upper "s3") "S3")) with false. cbv iota.
    by rewrite Hne, lstrip_keep.
  - replace ("s3:///" +:+ b +:+ "/" +:+ p)
      with ("s3://" +:+ "" +:+ String "/" (b +:+ "/" +:+ p)) by done.
    rewrite (urlparse_s3 "" (String "/" (b +:+ "/" +:+ p)) eq_refl).
    + cbn [urllib.scheme urllib.netloc urllib.path].
      change (negb (String.eqb (upper "s3") "S3")) with false. cbv iota.
      change (String.eqb "" "") with true. cbv iota.
      change (lstrip "/" (String "/" ?s)) with (lstrip "/" s).
      destruct b as [|x b]; [done|].
      rewrite app_cons. cbn in Hslash |- *.
      by destruct (Ascii.eqb x "/").
    + eauto.
    + cbn. rewrite contains_app, Hbhash. cbn. exact Hhash.
    + cbn. rewrite contains_app, Hbquery. cbn. exact Hquery.
Qed.

(** X3. With [create=True] and a URI that is no valid bucket name, a
    construction that returns leaves the bucket in the store with the
    objects it had (none when it was missing), leaves the other buckets
    alone, and has sent one [CreateBucket] request and nothing else. *)
Theorem init_create_postcondition (uri : string) (w w' : S3) (self : S3Storage.S3Storage) :
  valid_bucket_name uri = false ->
  S3Storage.__init__ uri true w = (Ok self, w') ->
  S3Storage.parseBucketName uri = Ok (S3Storage.bucketName self)
  /\ S3Storage.bucket self = {| boto3.name := S3Storage.bucketName self |}
  /\ buckets w' !! S3Storage.bucketName self = Some (objects w (S3Storage.bucketName self))
  /\ (forall b', b' <> S3Storage.bucketName self -> buckets w' !! b' = buckets w !! b')
  /\ calls w' = calls w ++ [CreateBucket (S3Storage.bucketName self)].
Proof.
  intros Huri.
  unfold S3Storage.__init__, bind, lift, ret.
  destruct (S3Storage.parseBucketName uri) as [b|e]; [|done].
  rewrite bucketExists_run, Huri.
  unfold boto3.create_bucket, objects.
  destruct (valid_bucket_name b); [|done].
  destruct (buckets w !! b) as [objs|] eqn:Hb; intros [= <- <-]; cbn.
  - by rewrite Hb.
  - rewrite lookup_insert_eq, Hb.
    repeat split; try done. intros b' Hne. by rewrite lookup_insert_ne.
Qed.

(** X4. For a name that passes the client's check, [_bucketExists]
    never answers [False]: it answers [True] exactly when the bucket is
    there, and raises the [ClientError] of the request when it is
    not. *)
Theorem bucketExists_valid_name (name : string) (w : S3) :
  valid_bucket_name name = true ->
  (S3Storage._bucketExists name w).1 <> Ok false
  /\ ((S3Storage._bucketExists name w).1 = Ok true <-> is_Some (buckets w !! name))
  /\ (buckets w !! name = None ->
      S3Storage._bucketExists name w
      = (Raise (ClientError "404"), boto3.send (HeadBucket name) w)).
Proof.
  intros Hname. rewrite bucketExists_run, Hname.
  destruct (buckets w !! name) as [objs|]; cbn.
  - repeat split; eauto; discriminate.
  - repeat split; first [done | by intros [? ?]].
Qed.

(** X5. With [create=False], a URI of the S3 scheme that is no valid
    bucket name makes [__init__] raise [NoRepositroyAtRoot] with that
    URI, whatever the store holds, and no request is sent. *)
Theorem init_no_create_raises (uri b : string) (w : S3) :
  S3Storage.parseBucketName uri = Ok b ->
  valid_bucket_name uri = false ->
  S3Storage.__init__ uri false w = (Raise (NoRepositroyAtRoot uri), w)
  /\ (S3Storage._bucketExists uri w).1 = Ok false.
Proof.
  intros Hparse Huri. split; [by apply (init_no_create_run uri b)|].
  by rewrite bucketExists_run, Huri.
Qed.

End more_addresses.

(** ** More on existence and search *)

Section more_existence.
Context `{Collaborators}.
Import dafPersist PyStr PyStrFacts.

(** X6. [exists] only reads: the buckets of the store are as they
    were, and at most one request is sent, a listing of the bound
    bucket under the first key of the location. *)
Theorem exists_read_only (self : S3Storage.S3Storage) (location : ButlerLocation) (w : S3) :
  buckets (S3Storage.exists_ self location w).2 = buckets w
  /\ (calls (S3Storage.exists_ self location w).2 = calls w
      \/ exists k rest,
           getLocations location = k :: rest
           /\ calls (S3Storage.exists_ self location w).2
              = calls w ++ [ListObjects (boto3.name (S3Storage.bucket self)) k]).
Proof.
  unfold S3Storage.exists_, bind, ret, raise, boto3.objects_filter.
  destruct (getLocations location) as [|k rest]; [by split; [|left]|].
  destruct (valid_bucket_name _); [|by split; [|left]].
  destruct (buckets w !! _); (split; [done | right; by exists k, rest]).
Qed.

(** X7. Whatever the store holds, [exists] answers [True] only for a
    location with a first key, and only when the bound bucket holds an
    object under exactly that key. *)
Theorem exists_true_only_if_stored (self : S3Storage.S3Storage)
    (location : ButlerLocation) (w : S3) :
  (S3Storage.exists_ self location w).1 = Ok true ->
  exists k rest,
    getLocations location = k :: rest
    /\ is_Some (objects w (boto3.name (S3Storage.bucket self)) !! k).
Proof.
  destruct location as [pt [|k rest]]; [done|].
  intros Htrue. exists k, rest. split; [done|].
  by apply (exists_true_stored self pt k rest w).
Qed.

(** X8. The name that [instanceSearch] looks up is a prefix of the
    path it is given, and a proper one when the path ends in []]. *)
Theorem strippedPath_is_prefix (path : string) :
  String.prefix (S3Storage.strippedPath path) path = true
  /\ len (S3Storage.strippedPath path) <= len path
  /\ (endswith "]" path = true -> len (S3Storage.strippedPath path) < len path).
Proof.
  unfold S3Storage.strippedPath, slice_to.
  destruct (endswith "]" path) eqn:Hend.
  - split; [apply take_prefix|].
    assert (len (take (bound path (rfind "[" path)) path) < len path) as Hlt.
    { unfold len at 1. rewrite take_length.
      pose proof (endswith_nonempty _ _ Hend) as Hpos.
      unfold bound, rfind.
      destruct (rfind_from_range "[" path 0 (-1)) as [-> | Hr].
      - change (-1 <? 0) with true. cbv iota. unfold len in *. lia.
      - destruct (Z.ltb_spec (rfind_from "[" path 0 (-1)) 0); unfold len in *; lia. }
    split; [lia | done].
  - split; [apply prefix_refl|]. split; [lia | done].
Qed.

End more_existence.

(** ** Objects written and read by the formatters of the tests *)

Section test_formatters.
Context `{Collaborators}.
Import dafPersist test_basics.

Ltac bucket_lookup :=
  unfold boto3.send, boto3.set_bucket; cbn [buckets]; apply lookup_insert_eq.

Variable formatters : Formatters.
Variable T : PyType.
Hypothesis Hwrite : getWriteFormatter formatters T = Some writeMyTestObject.
Hypothesis Hread : getReadFormatter formatters (Some T) = Some readMyTestObject.

Lemma write_run b key rest v w objs :
  type_of v = T ->
  valid_bucket_name b = true ->
  buckets w !! b = Some objs ->
  S3Storage.write formatters (backend b) {| pythonType := Some T; locationList := key :: rest |} v w
  = (Ok tt, boto3.set_bucket b (<[key := pickle_dump v]> objs)
              (boto3.send (PutObject b key) w)).
Proof.
  intros HT Hb Hw. unfold S3Storage.write. rewrite HT, Hwrite.
  by apply writeMyTestObject_run.
Qed.

Lemma read_run b key rest w objs :
  valid_bucket_name b = true ->
  buckets w !! b = Some objs ->
  S3Storage.read formatters (backend b) {| pythonType := Some T; locationList := key :: rest |} w
  = (match objs !! key with
     | Some f => match pickle_load f with
                 | Some obj => Ok (PyList [obj])
                 | None => Raise DecodeError
                 end
     | None => Ok PyNone
     end, boto3.send (DownloadFile b key) w).
Proof.
  intros Hb Hw. unfold S3Storage.read, getPythonType. cbn [pythonType]. rewrite Hread.
  by apply readMyTestObject_run.
Qed.

(** X9. What [write] stores at a location, [read] at that location
    gives back, as a list of one object. *)
Theorem write_read_roundtrip b key rest v w objs :
  type_of v = T ->
  pickle_load (pickle_dump v) = Some v ->
  valid_bucket_name b = true ->
  buckets w !! b = Some objs ->
  ((S3Storage.write formatters (backend b)
      {| pythonType := Some T; locationList := key :: rest |} v;;
    S3Storage.read formatters (backend b)
      {| pythonType := Some T; locationList := key :: rest |}) w).1
  = Ok (PyList [v]).
Proof.
  intros HT Hpickle Hb Hw. unfold bind.
  rewrite (write_run b key rest v w objs HT Hb Hw).
  erewrite read_run by first [done | bucket_lookup].
  by rewrite lookup_insert_eq, Hpickle.
Qed.

(** X10. A second [write] at the same key replaces the object: [read]
    gives the object written last. *)
Theorem write_overwrites b key rest rest' v v' w objs :
  type_of v = T ->
  type_of v' = T ->
  pickle_load (pickle_dump v') = Some v' ->
  valid_bucket_name b = true ->
  buckets w !! b = Some objs ->
  ((S3Storage.write formatters (backend b)
      {| pythonType := Some T; locationList := key :: rest |} v;;
    S3Storage.write formatters (backend b)
      {| pythonType := Some T; locationList := key :: rest' |} v';;
    S3Storage.read formatters (backend b)
      {| pythonType := Some T; locationList := key :: rest |}) w).1
  = Ok (PyList [v']).
Proof.
  intros HT HT' Hpickle Hb Hw. unfold bind.
  rewrite (write_run b key rest v w objs HT Hb Hw).
  erewrite write_run by first [done | bucket_lookup].
  erewrite read_run by first [done | bucket_lookup].
  by rewrite lookup_insert_eq, Hpickle.
Qed.

(** X11. [read] at a key that the bucket does not hold returns [None]
    and raises nothing; the buckets are as they were. *)
Theorem read_missing_key b key rest w objs :
  valid_bucket_name b = true ->
  buckets w !! b = Some objs ->
  objs !! key = None ->
  (S3Storage.read formatters (backend b)
     {| pythonType := Some T; locationList := key :: rest |} w).1 = Ok PyNone
  /\ buckets (S3Storage.read formatters (backend b)
                {| pythonType := Some T; locationList := key :: rest |} w).2 = buckets w.
Proof.
  intros Hb Hw Hkey.
  rewrite (read_run b key rest w objs Hb Hw), Hkey. done.
Qed.

(** X12. After [write] at a key, [exists] at that key answers [True],
    and at any other key it answers what it answered before. *)
Theorem write_then_exists b key rest v other pt w objs :
  type_of v = T ->
  valid_bucket_name b = true ->
  buckets w !! b = Some objs ->
  other <> key ->
  ((S3Storage.write formatters (backend b)
      {| pythonType := Some T; locationList := key :: rest |} v;;
    S3Storage.exists_ (backend b)
      {| pythonType := Some T; locationList := key :: rest |}) w).1 = Ok true
  /\ ((S3Storage.write formatters (backend b)
         {| pythonType := Some T; locationList := key :: rest |} v;;
       S3Storage.exists_ (backend b) {| pythonType := pt; locationList := [other] |}) w).1
     = (S3Storage.exists_ (backend b) {| pythonType := pt; locationList := [other] |} w).1.
Proof.
  intros HT Hb Hw Hne. unfold bind.
  rewrite (write_run b key rest v w objs HT Hb Hw).
  rewrite (exists_run (backend b) pt other [] w objs Hb Hw).
  split.
  - erewrite exists_run by first [done | bucket_lookup].
    cbn [fst]. rewrite lookup_insert_eq. by rewrite bool_decide_eq_true_2.
  - erewrite exists_run by first [done | bucket_lookup].
    cbn [fst]. by rewrite lookup_insert_ne.
Qed.

(** X13. After [write] at the key [p], [instanceSearch] finds [p[n]]
    for every [n] made of digits. *)
Theorem write_then_instanceSearch b p n rest v w objs :
  type_of v = T ->
  valid_bucket_name b = true ->
  buckets w !! b = Some objs ->
  PyStr.forallb urllib.is_digit n = true ->
  ((S3Storage.write formatters (backend b)
      {| pythonType := Some T; locationList := p :: rest |} v;;
    S3Storage.instanceSearch (backend b) (p +:+ "[" +:+ n +:+ "]")) w).1 = Ok true.
Proof.
  intros HT Hb Hw Hn. unfold bind.
  rewrite (write_run b p rest v w objs HT Hb Hw).
  rewrite instanceSearch_exists, (strippedPath_bracket p n (digits_no_bracket n Hn)).
  erewrite exists_run by first [done | bucket_lookup].
  cbn [fst]. rewrite lookup_insert_eq. by rewrite bool_decide_eq_true_2.
Qed.

End test_formatters.

(** ** More on copies *)

Section more_copies.
Context `{Collaborators}.
Import dafPersist.

(** X14. [copyFile] from a key that the bucket does not hold raises
    the [ClientError] of the request, and the buckets are as they
    were. *)
Theorem copyFile_missing_source b src dst w objs :
  valid_bucket_name b = true ->
  buckets w !! b = Some objs ->
  objs !! src = None ->
  (S3Storage.copyFile (backend b) src dst w).1 = Raise (ClientError "404")
  /\ buckets (S3Storage.copyFile (backend b) src dst w).2 = buckets w.
Proof.
  intros Hb Hw Hsrc. unfold S3Storage.copyFile. cbn [S3Storage.bucket S3Storage.bucketName backend].
  by rewrite (copy_run b src dst w objs Hb Hw), Hsrc.
Qed.

(** X15. [copyFile] from a key that the bucket holds returns, and
    afterwards the destination holds the body of the source, replacing
    what it held; every other key of the bucket, the source among them,
    and every other bucket is as it was. *)
Theorem copyFile_effect b src dst body w objs :
  valid_bucket_name b = true ->
  buckets w !! b = Some objs ->
  objs !! src = Some body ->
  (S3Storage.copyFile (backend b) src dst w).1 = Ok tt
  /\ objects (S3Storage.copyFile (backend b) src dst w).2 b !! dst = Some body
  /\ objects (S3Storage.copyFile (backend b) src dst w).2 b !! src = Some body
  /\ (forall k, k <> dst ->
        objects (S3Storage.copyFile (backend b) src dst w).2 b !! k = objs !! k)
  /\ (forall b', b' <> b ->
        buckets (S3Storage.copyFile (backend b) src dst w).2 !! b' = buckets w !! b').
Proof.
  intros Hb Hw Hsrc. unfold S3Storage.copyFile. cbn [S3Storage.bucket S3Storage.bucketName backend].
  rewrite (copy_run b src dst w objs Hb Hw), Hsrc. cbn [fst snd].
  rewrite objects_set_bucket.
  split; [done|]. split; [apply lookup_insert_eq|]. split; [|split].
  - destruct (decide (dst = src)) as [->|Hne];
      [apply lookup_insert_eq | by rewrite lookup_insert_ne].
  - intros k Hk. by rewrite lookup_insert_ne.
  - intros b' Hb'. unfold boto3.set_bucket, boto3.send. cbn [buckets].
    by rewrite lookup_insert_ne.
Qed.

(** X16. After [copyFile], [exists] answers [True] at the destination
    and still answers [True] at the source. *)
Theorem copyFile_then_exists b src dst body pt pt' w objs :
  valid_bucket_name b = true ->
  buckets w !! b = Some objs ->
  objs !! src = Some body ->
  ((S3Storage.copyFile (backend b) src dst;;
    S3Storage.exists_ (backend b) {| pythonType := pt; locationList := [dst] |}) w).1 = Ok true
  /\ ((S3Storage.copyFile (backend b) src dst;;
       S3Storage.exists_ (backend b) {| pythonType := pt'; locationList := [src] |}) w).1 = Ok true.
Proof.
  intros Hb Hw Hsrc. unfold bind, S3Storage.copyFile.
  cbn [S3Storage.bucket S3Storage.bucketName backend].
  rewrite (copy_run b src dst w objs Hb Hw), Hsrc.
  split.
  - erewrite exists_run by first [done | apply lookup_insert_eq].
    cbn [fst]. rewrite lookup_insert_eq. by rewrite bool_decide_eq_true_2.
  - erewrite exists_run by first [done | apply lookup_insert_eq].
    cbn [fst]. rewrite bool_decide_eq_true_2; [done|].
    destruct (decide (dst = src)) as [->|Hne];
      [rewrite lookup_insert_eq | rewrite lookup_insert_ne]; eauto.
Qed.

End more_copies.

(** ** More on the repository configuration *)

Section more_configuration.
Context `{Collaborators}.
Import dafPersist fmtRepositoryCfg.

Variable formatters : Formatters.

Lemma created_other b b' w : b' <> b -> buckets (created b w) !! b' = buckets w !! b'.
Proof.
  intros Hne. unfold created, boto3.set_bucket, boto3.send. cbn [buckets].
  by rewrite lookup_insert_ne.
Qed.

Lemma created_contents b b' w : objects (created b w) b' = objects w b'.
Proof.
  destruct (decide (b' = b)) as [->|Hne]; [apply created_objects|].
  unfold objects at 1. by rewrite created_other.
Qed.

(** X17. [putRepositoryCfg] of an object whose type has no write
    formatter raises its [RuntimeError] only after the bucket of the
    root has been created: the store then holds the bucket, and one
    [CreateBucket] request was sent. *)
Theorem putRepositoryCfg_without_formatter cfg root b w :
  cfg_root cfg = Some root ->
  S3Storage.parseBucketName root = Ok b ->
  valid_bucket_name root = false ->
  valid_bucket_name b = true ->
  getWriteFormatter formatters (type_of cfg) = None ->
  (S3Storage.putRepositoryCfg formatters cfg None w).1 = Raise (RuntimeError NoWriteFormatter)
  /\ buckets (S3Storage.putRepositoryCfg formatters cfg None w).2 !! b = Some (objects w b)
  /\ calls (S3Storage.putRepositoryCfg formatters cfg None w).2 = calls w ++ [CreateBucket b].
Proof.
  intros Hroot Hparse Huri Hb Hnone.
  assert (S3Storage.putRepositoryCfg formatters cfg None w
          = (Raise (RuntimeError NoWriteFormatter), created b w)) as ->.
  { unfold S3Storage.putRepositoryCfg, bind. rewrite Hroot. unfold ret at 1.
    rewrite (makeFromURI_init root b true Hparse), (init_create_run root b w Hparse Huri Hb).
    unfold S3Storage.write. by rewrite Hnone. }
  cbn [fst snd].
  split; [done|]. split; [apply created_lookup | done].
Qed.

Section cfg_registered.
Hypothesis Hread :
  getReadFormatter formatters (Some RepositoryCfg) = Some readRepositoryCfg.

(** X18. [getRepositoryCfg] changes no object of any bucket, but it
    creates the bucket of the root when the store does not hold it; it
    sends a [CreateBucket] request and then the download of the
    configuration key. *)
Theorem getRepositoryCfg_creates_bucket uri b w :
  S3Storage.parseBucketName uri = Ok b ->
  valid_bucket_name uri = false ->
  valid_bucket_name b = true ->
  (forall b', objects (S3Storage.getRepositoryCfg formatters uri w).2 b' = objects w b')
  /\ buckets (S3Storage.getRepositoryCfg formatters uri w).2 !! b = Some (objects w b)
  /\ (forall b', b' <> b ->
        buckets (S3Storage.getRepositoryCfg formatters uri w).2 !! b' = buckets w !! b')
  /\ calls (S3Storage.getRepositoryCfg formatters uri w).2
     = calls w ++ [CreateBucket b; DownloadFile b remoteCfgName].
Proof.
  intros Hparse Huri Hb.
  rewrite (getRepositoryCfg_run formatters Hread uri b w Hparse Huri Hb). cbn [snd].
  split; [intros b'; apply created_contents|].
  split; [apply created_lookup|].
  split; [intros b' Hne; by apply created_other|].
  unfold created, boto3.set_bucket, boto3.send. cbn [calls]. by rewrite <- app_assoc.
Qed.

(** X19. What [getRepositoryCfg] makes of the object stored under the
    configuration key is what the decoder makes of it: a body that does
    not decode makes [getRepositoryCfg] and [getMapperClass] raise the
    decoder's error, a body that decodes to [None] makes
    [getMapperClass] raise [NoRepositroyAtRoot] although the key is
    there, and one that decodes to a list makes it raise
    [AttributeError]. *)
Theorem stored_cfg_decoding root b j w :
  S3Storage.parseBucketName root = Ok b ->
  valid_bucket_name root = false ->
  valid_bucket_name b = true ->
  objects w b !! remoteCfgName = Some j ->
  (yaml_load j = None ->
     (S3Storage.getRepositoryCfg formatters root w).1 = Raise DecodeError
     /\ (S3Storage.getMapperClass formatters root w).1 = Raise DecodeError)
  /\ (yaml_load j = Some PyNone ->
     (S3Storage.getRepositoryCfg formatters root w).1 = Ok PyNone
     /\ (S3Storage.getMapperClass formatters root w).1 = Raise (NoRepositroyAtRoot root))
  /\ (forall l, yaml_load j = Some (PyList l) ->
     (S3Storage.getMapperClass formatters root w).1 = Raise AttributeError)
  /\ (forall cfg, yaml_load j = Some (PyVal cfg) ->
     (S3Storage.getRepositoryCfg formatters root w).1 = Ok (PyVal cfg)).
Proof.
  intros Hparse Huri Hb Hj.
  rewrite (getMapperClass_run formatters root w).
  rewrite (getRepositoryCfg_run formatters Hread root b w Hparse Huri Hb), Hj.
  repeat split; intros;
    match goal with Hy : yaml_load j = _ |- _ => by rewrite Hy end.
Qed.

Hypothesis Hwrite :
  getWriteFormatter formatters RepositoryCfg = Some writeRepositoryCfg.

(** [putRepositoryCfg] at the address [uri], taken from [loc] or, when
    [loc] is [None], from the root of the configuration. *)
Lemma putRepositoryCfg_at cfg loc uri b w :
  (loc = Some uri \/ (loc = None /\ cfg_root cfg = Some uri)) ->
  type_of cfg = RepositoryCfg ->
  S3Storage.parseBucketName uri = Ok b ->
  valid_bucket_name uri = false ->
  valid_bucket_name b = true ->
  S3Storage.putRepositoryCfg formatters cfg loc w
  = (Ok tt, boto3.set_bucket b (<[remoteCfgName := yaml_dump cfg]> (objects w b))
              (boto3.send (PutObject b remoteCfgName) (created b w))).
Proof.
  intros Hloc Htype Hparse Huri Hb.
  assert (S3Storage.putRepositoryCfg formatters cfg loc
          = S3Storage.putRepositoryCfg formatters cfg (Some uri)) as ->.
  { destruct Hloc as [-> | [-> Hroot]]; [done|].
    unfold S3Storage.putRepositoryCfg. by rewrite Hroot. }
  unfold S3Storage.putRepositoryCfg, bind. unfold ret at 1.
  rewrite (makeFromURI_init uri b true Hparse), (init_create_run uri b w Hparse Huri Hb).
  unfold S3Storage.write. rewrite Htype, Hwrite.
  unfold writeRepositoryCfg. cbn [S3Storage.bucket backend].
  by rewrite (put_object_run b _ _ _ (objects w b) Hb (created_lookup b w)).
Qed.

(** X20. With a location given, [putRepositoryCfg] writes to the
    bucket of that location and does not read the root of the
    configuration: [getRepositoryCfg] at the location returns the
    configuration, and every other bucket, that of the root among them,
    is as it was. *)
Theorem putRepositoryCfg_loc_override cfg loc b w :
  type_of cfg = RepositoryCfg ->
  S3Storage.parseBucketName loc = Ok b ->
  valid_bucket_name loc = false ->
  valid_bucket_name b = true ->
  yaml_load (yaml_dump cfg) = Some (PyVal cfg) ->
  ((S3Storage.putRepositoryCfg formatters cfg (Some loc);;
    S3Storage.getRepositoryCfg formatters loc) w).1 = Ok (PyVal cfg)
  /\ (forall b', b' <> b ->
        buckets (S3Storage.putRepositoryCfg formatters cfg (Some loc) w).2 !! b'
        = buckets w !! b').
Proof.
  intros Htype Hparse Huri Hb Hyaml. unfold bind.
  rewrite (putRepositoryCfg_at cfg (Some loc) loc b w) by eauto.
  split.
  - rewrite (getRepositoryCfg_run formatters Hread loc b _ Hparse Huri Hb).
    by rewrite objects_set_bucket, lookup_insert_eq, Hyaml.
  - intros b' Hne. cbn [snd]. unfold boto3.set_bucket, boto3.send. cbn [buckets].
    rewrite lookup_insert_ne by done. by apply created_other.
Qed.

(** X21. [putRepositoryCfg] changes one key of one bucket: the
    configuration key of the bucket of the root then holds the encoded
    configuration, the other keys of that bucket and the other buckets
    are as they were, and the requests sent are a [CreateBucket] and a
    [PutObject]. *)
Theorem putRepositoryCfg_frame cfg root b w :
  type_of cfg = RepositoryCfg ->
  cfg_root cfg = Some root ->
  S3Storage.parseBucketName root = Ok b ->
  valid_bucket_name root = false ->
  valid_bucket_name b = true ->
  objects (S3Storage.putRepositoryCfg formatters cfg None w).2 b !! remoteCfgName
  = Some (yaml_dump cfg)
  /\ (forall k, k <> remoteCfgName ->
        objects (S3Storage.putRepositoryCfg formatters cfg None w).2 b !! k
        = objects w b !! k)
  /\ (forall b', b' <> b ->
        buckets (S3Storage.putRepositoryCfg formatters cfg None w).2 !! b'
        = buckets w !! b')
  /\ calls (S3Storage.putRepositoryCfg formatters cfg None w).2
     = calls w ++ [CreateBucket b; PutObject b remoteCfgName].
Proof.
  intros Htype Hroot Hparse Huri Hb.
  rewrite (putRepositoryCfg_at cfg None root b w) by eauto. cbn [snd].
  rewrite objects_set_bucket.
  split; [apply lookup_insert_eq|].
  split; [intros k Hk; by rewrite lookup_insert_ne|].
  split.
  - intros b' Hne. unfold boto3.set_bucket, boto3.send. cbn [buckets].
    rewrite lookup_insert_ne by done. by apply created_other.
  - unfold created, boto3.set_bucket, boto3.send. cbn [calls]. by rewrite <- app_assoc.
Qed.

(** X22. After [putRepositoryCfg] of a configuration, [getMapperClass]
    at its root returns the mapper of the configuration. *)
Theorem putRepositoryCfg_getMapperClass cfg mapper root b w :
  type_of cfg = RepositoryCfg ->
  cfg_root cfg = Some root ->
  cfg_mapper cfg = Some mapper ->
  S3Storage.parseBucketName root = Ok b ->
  valid_bucket_name root = false ->
  valid_bucket_name b = true ->
  yaml_load (yaml_dump cfg) = Some (PyVal cfg) ->
  ((S3Storage.putRepositoryCfg formatters cfg None;;
    S3Storage.getMapperClass formatters root) w).1 = Ok mapper.
Proof.
  intros Htype Hroot Hmapper Hparse Huri Hb Hyaml. unfold bind.
  rewrite (putRepositoryCfg_at cfg None root b w) by eauto.
  rewrite (getMapperClass_run formatters).
  rewrite (getRepositoryCfg_run formatters Hread root b _ Hparse Huri Hb).
  by rewrite objects_set_bucket, lookup_insert_eq, Hyaml, Hmapper.
Qed.

End cfg_registered.
End more_configuration.

(** ** The helpers of the tests *)

Section test_helpers.
Import PyStr PyStrFacts BasicTestCase.

Lemma bucket_char_not_slash x : botocore.is_bucket_char x = true -> x <> "/"%char.
Proof. intros Hx ->. discriminate Hx. Qed.

Lemma getS3URI_join (name : string) :
  forallb botocore.is_bucket_char name = true ->
  os_path_join "s3:///" name = "s3:///" +:+ name.
Proof.
  intros Hname. unfold os_path_join.
  destruct name as [|x name]; [done|].
  cbn in Hname. apply andb_prop in Hname as [Hx%bucket_char_not_slash _].
  change (String.prefix "/" (String x name)) with (if ascii_dec "/" x then String.prefix "" name else false).
  by destruct (ascii_dec "/" x) as [<-|_].
Qed.

Lemma prefixBucketName_chars prefix name :
  forallb botocore.is_bucket_char (default "" prefix) = true ->
  forallb botocore.is_bucket_char name = true ->
  forallb botocore.is_bucket_char (_prefixBucketName prefix name) = true.
Proof.
  intros Hp Hn. unfold _prefixBucketName.
  destruct prefix as [p|]; [|done]. cbn in Hp.
  destruct (String.eqb p ""); [done|].
  rewrite !forallb_app, Hp, Hn. done.
Qed.

(** X23. [_getS3URI] does not look at the bucket name it is given: for
    every name asked for, the URI is that of the bucket [test_copy]
    (with the prefix of the environment, if any), in the three-slash
    form, and that bucket name is the one recorded for clean-up. *)
Theorem getS3URI_ignores_name (prefix : option string) (cleanup : list string)
    (bucketName : string) :
  forallb botocore.is_bucket_char (default "" prefix) = true ->
  (_getS3URI prefix cleanup bucketName).1
  = "s3:///" +:+ _prefixBucketName prefix "test_copy"
  /\ S3Storage.parseBucketName (_getS3URI prefix cleanup bucketName).1
     = Ok (_prefixBucketName prefix "test_copy")
  /\ (_getS3URI prefix cleanup bucketName).2
     = cleanup ++ [_prefixBucketName prefix "test_copy"].
Proof.
  intros Hp.
  pose proof (prefixBucketName_chars prefix "test_copy" Hp eq_refl) as Hname.
  unfold _getS3URI. cbn [fst snd].
  rewrite (getS3URI_join _ Hname).
  split; [done|]. split; [|done].
  exact (parseBucketName_bucket "s3" 1 _ (or_introl eq_refl) Hname).
Qed.

End test_helpers.

(** * Concrete runs

    The package run on the concrete collaborators of [Demo]. *)

#[local] Existing Instance Demo.collaborators.

(** C1, at a failing input. The store holds the bucket [my-bucket] and
    the URI [s3://my-bucket] names it, yet [__init__] with [create=False]
    raises [NoRepositroyAtRoot]: [_bucketExists] is handed the URI where
    its documentation asks for the name of the bucket, and the URI fails
    the client's check of a bucket name. Whatever that check accepts,
    the construction cannot return, since no bucket is named like the
    URI. *)
Theorem init_existing_bucket_raises :
  S3Storage.parseBucketName "s3://my-bucket" = Ok "my-bucket"
  /\ is_Some (buckets Demo.my_bucket !! "my-bucket")
  /\ S3Storage._bucketExists "s3://my-bucket" Demo.my_bucket = (Ok false, Demo.my_bucket)
  /\ S3Storage._bucketExists "my-bucket" Demo.my_bucket
     = (Ok true, boto3.send (HeadBucket "my-bucket") Demo.my_bucket)
  /\ S3Storage.__init__ "s3://my-bucket" false Demo.my_bucket
     = (Raise (NoRepositroyAtRoot "s3://my-bucket"), Demo.my_bucket)
  /\ (forall (C : Collaborators) self w',
        @S3Storage.__init__ C "s3://my-bucket" false Demo.my_bucket <> (Ok self, w')).
Proof.
  split; [reflexivity|]. split; [by vm_compute; eexists|].
  split; [by vm_compute|]. split; [by vm_compute|]. split; [by vm_compute|].
  intros C self w' Hinit.
  apply (@init_no_create_needs_uri_bucket C) in Hinit as [objs Hobjs].
  vm_compute in Hobjs. discriminate.
Qed.

Example urlparse_two_slashes :
  urllib.urlparse "s3://my-bucket"
  = Some {| urllib.scheme := "s3"; urllib.netloc := "my-bucket"; urllib.path := "";
            urllib.query := ""; urllib.fragment := "" |}.
Proof. reflexivity. Qed.

Example urlparse_three_slashes :
  urllib.urlparse "S3:///my-bucket"
  = Some {| urllib.scheme := "s3"; urllib.netloc := ""; urllib.path := "/my-bucket";
            urllib.query := ""; urllib.fragment := "" |}.
Proof. reflexivity. Qed.

Example urlparse_no_scheme :
  urllib.urlparse "/tmp/repo?x#y"
  = Some {| urllib.scheme := ""; urllib.netloc := ""; urllib.path := "/tmp/repo";
            urllib.query := "x"; urllib.fragment := "y" |}.
Proof. reflexivity. Qed.

Example rfind_examples :
  PyStr.rfind "[" "foo.fits[1]" = 8 /\ PyStr.rfind "[" "foo]" = -1
  /\ PyStr.slice_to "foo]" (-1) = "foo" /\ PyStr.slice_to "foo.fits[1]" 8 = "foo.fits".
Proof. repeat split; reflexivity. Qed.

Example init_runs :
  S3Storage.__init__ "s3:///test_doesNotExist" false Demo.empty_store
  = (Raise (NoRepositroyAtRoot "s3:///test_doesNotExist"), Demo.empty_store)
  /\ (S3Storage.__init__ "s3:///test_slashcount" true Demo.empty_store).1
     = Ok (backend "test_slashcount")
  /\ (S3Storage.__init__ "s3://test_slashcount" true Demo.empty_store).1
     = Ok (backend "test_slashcount")
  /\ (S3Storage.__init__ "S3://test_slashcount" true Demo.empty_store).1
     = Ok (backend "test_slashcount")
  /\ (S3Storage.__init__ "s3:////test_slashcount" true Demo.empty_store).1
     = Ok (backend "test_slashcount")
  /\ (S3Storage.__init__ "file:///tmp/repo" true Demo.empty_store).1
     = Raise (RuntimeError (UnsupportedScheme "file")).
Proof. by vm_compute. Qed.

Lemma exists_iff_exact_key_witness :
  ((S3Storage.exists_ (backend "test_exists") (Demo.loc "MyTestObject" "foo.fits1")
      (Demo.store_with "test_exists" Demo.foo_fits)).1 = Ok true
     <-> exists body, (list_to_map Demo.foo_fits : gmap string Body) !! "foo.fits1" = Some body)
  /\ ((S3Storage.exists_ (backend "test_exists") (Demo.loc "MyTestObject" "foo.fits1")
         (Demo.store_with "test_exists" Demo.foo_fits)).1 = Ok false
     <-> (list_to_map Demo.foo_fits : gmap string Body) !! "foo.fits1" = None).
Proof.
  apply (@exists_iff_exact_key Demo.collaborators (backend "test_exists")
           (Some "MyTestObject") "foo.fits1" []
           (Demo.store_with "test_exists" Demo.foo_fits) (list_to_map Demo.foo_fits)).
  - vm_compute. reflexivity.
  - vm_compute. reflexivity.
Defined.

Example exists_precision :
  (S3Storage.exists_ (backend "test_exists") (Demo.loc "MyTestObject" "foo.fits")
     (Demo.store_with "test_exists" Demo.foo_fits)).1 = Ok true
  /\ (S3Storage.exists_ (backend "test_exists") (Demo.loc "MyTestObject" "foo.fits1")
        (Demo.store_with "test_exists" Demo.foo_fits)).1 = Ok false
  /\ (boto3.objects_filter {| boto3.name := "test_exists" |} "foo.fits1"
        (Demo.store_with "test_exists" (("foo.fits10", []) :: Demo.foo_fits))).1
     = Ok ["foo.fits10"]
  /\ (S3Storage.exists_ (backend "test_exists") (Demo.loc "MyTestObject" "foo.fits1")
        (Demo.store_with "test_exists" (("foo.fits10", []) :: Demo.foo_fits))).1 = Ok false.
Proof. by vm_compute. Qed.

Lemma instanceSearch_strips_hdu_witness :
  ((S3Storage.instanceSearch (backend "test_search") "foo.fits[1]"
      (Demo.store_with "test_search" Demo.foo_fits)).1 = Ok true
     <-> exists body', (list_to_map Demo.foo_fits : gmap string Body) !! "foo.fits" = Some body')
  /\ ((S3Storage.instanceSearch (backend "test_search") "foo.fits[1]"
         (Demo.store_with "test_search" Demo.foo_fits)).1 = Ok false
     <-> (list_to_map Demo.foo_fits : gmap string Body) !! "foo.fits" = None)
  /\ (S3Storage.instanceSearch (backend "test_search") "foo.fits[1]"
        (boto3.set_bucket "test_search" (<["foo.fits[1]" := []]> (list_to_map Demo.foo_fits))
           (Demo.store_with "test_search" Demo.foo_fits))).1
     = (S3Storage.instanceSearch (backend "test_search") "foo.fits[1]"
          (Demo.store_with "test_search" Demo.foo_fits)).1
  /\ (S3Storage.instanceSearch (backend "test_search") "foo.fits[1]"
        (boto3.set_bucket "test_search" (delete "foo.fits[1]" (list_to_map Demo.foo_fits))
           (Demo.store_with "test_search" Demo.foo_fits))).1
     = (S3Storage.instanceSearch (backend "test_search") "foo.fits[1]"
          (Demo.store_with "test_search" Demo.foo_fits)).1
  /\ S3Storage.instanceSearch (backend "test_search") "bar.fits"
     = S3Storage.exists_ (backend "test_search")
         {| dafPersist.pythonType := None; dafPersist.locationList := ["bar.fits"] |}.
Proof.
  apply (@instanceSearch_strips_hdu Demo.collaborators (backend "test_search")
           "foo.fits" "1" "bar.fits"
           (Demo.store_with "test_search" Demo.foo_fits) (list_to_map Demo.foo_fits) []).
  - vm_compute. reflexivity.
  - vm_compute. reflexivity.
  - vm_compute. reflexivity.
  - vm_compute. reflexivity.
Defined.

Example instanceSearch_literal_key :
  (S3Storage.instanceSearch (backend "test_search") "foo.fits[1]"
     (Demo.store_with "test_search" [("foo.fits[1]", [])])).1 = Ok false
  /\ (S3Storage.instanceSearch (backend "test_search") "foo.fits[1]"
     (Demo.store_with "test_search" Demo.foo_fits)).1 = Ok true
  /\ (S3Storage.instanceSearch (backend "test_search") "foo.fits"
     (Demo.store_with "test_search" Demo.foo_fits)).1 = Ok true.
Proof. by vm_compute. Qed.

Lemma strippedPath_last_bracket_only_witness :
  S3Storage.strippedPath "foo[bar]" = "foo"
  /\ S3Storage.instanceSearch (backend "test_search") "foo[bar]"
     = S3Storage.exists_ (backend "test_search")
         {| dafPersist.pythonType := None; dafPersist.locationList := ["foo"] |}
  /\ S3Storage.strippedPath "foo]" = "foo"
  /\ S3Storage.instanceSearch (backend "test_search") "foo]"
     = S3Storage.exists_ (backend "test_search")
         {| dafPersist.pythonType := None; dafPersist.locationList := ["foo"] |}.
Proof.
  apply (@strippedPath_last_bracket_only Demo.collaborators (backend "test_search")
           "foo" "bar" "foo").
  - vm_compute. reflexivity.
  - vm_compute. reflexivity.
Defined.

Example strippedPath_examples :
  S3Storage.strippedPath "foo.fits[1]" = "foo.fits"
  /\ S3Storage.strippedPath "a[1]/b.fits[2]" = "a[1]/b.fits"
  /\ S3Storage.strippedPath "foo.fits" = "foo.fits"
  /\ S3Storage.strippedPath "]" = "".
Proof. by vm_compute. Qed.

Lemma dispatch_by_type_witness :
  S3Storage.write Demo.formatters (backend "test_dispatch") (Demo.loc "type" "testname")
    (Demo.ClassObj "MyMapper") (Demo.store_with "test_dispatch" [])
  = (Raise (RuntimeError NoWriteFormatter), Demo.store_with "test_dispatch" [])
  /\ S3Storage.read Demo.formatters (backend "test_dispatch") (Demo.loc "type" "testname")
       (Demo.store_with "test_dispatch" [])
     = (Raise (RuntimeError NoReadFormatter), Demo.store_with "test_dispatch" [])
  /\ S3Storage.write Demo.formatters (backend "test_dispatch")
       (Demo.loc "MyTestObject" "testname") (Demo.MyTestObject "foo")
     = test_basics.writeMyTestObject {| boto3.name := "test_dispatch" |}
         (Demo.loc "MyTestObject" "testname") (Demo.MyTestObject "foo")
  /\ S3Storage.read Demo.formatters (backend "test_dispatch") (Demo.loc "MyTestObject" "testname")
     = test_basics.readMyTestObject {| boto3.name := "test_dispatch" |}
         (Demo.loc "MyTestObject" "testname").
Proof.
  pose proof (@dispatch_by_type Demo.collaborators Demo.formatters (backend "test_dispatch")
                (Demo.loc "type" "testname") (Demo.ClassObj "MyMapper")
                (Demo.store_with "test_dispatch" []))
    as (Hwrite & Hread & _ & _).
  pose proof (@dispatch_by_type Demo.collaborators Demo.formatters (backend "test_dispatch")
                (Demo.loc "MyTestObject" "testname") (Demo.MyTestObject "foo")
                (Demo.store_with "test_dispatch" []))
    as (_ & _ & Hwriter & Hreader).
  split; [apply Hwrite; reflexivity|].
  split; [apply Hread; reflexivity|].
  split; [apply Hwriter; reflexivity|].
  apply Hreader; reflexivity.
Defined.

Example unsupported_type_sends_nothing :
  calls (S3Storage.write Demo.formatters (backend "test_dispatch")
           (Demo.loc "type" "testname") (Demo.ClassObj "MyMapper")
           (Demo.store_with "test_dispatch" [])).2 = []
  /\ calls (S3Storage.write Demo.formatters (backend "test_dispatch")
           (Demo.loc "MyTestObject" "testname") (Demo.MyTestObject "foo")
           (Demo.store_with "test_dispatch" [])).2 = [PutObject "test_dispatch" "testname"].
Proof. by vm_compute. Qed.

Lemma slash_count_equivalence_witness :
  S3Storage.parseBucketName "s3://test_slashcount" = Ok "test_slashcount"
  /\ S3Storage.parseBucketName "s3:///test_slashcount" = Ok "test_slashcount"
  /\ S3Storage.parseBucketName "S3://test_slashcount" = Ok "test_slashcount"
  /\ (forall k, S3Storage.parseBucketName ("s3://" +:+ slashes k +:+ "test_slashcount")
                = Ok "test_slashcount")
  /\ (urllib.netloc <$> urllib.urlparse "s3://test_slashcount") = Some "test_slashcount"
  /\ (urllib.path <$> urllib.urlparse "s3:///test_slashcount") = Some "/test_slashcount"
  /\ (forall uri create w self w',
        uri ∈ ["s3://test_slashcount"; "s3:///test_slashcount"; "S3://test_slashcount"] ->
        S3Storage.__init__ uri create w = (Ok self, w') ->
        self = backend "test_slashcount").
Proof.
  apply (@slash_count_equivalence Demo.collaborators "test_slashcount").
  vm_compute. reflexivity.
Defined.

Lemma getMapperClass_NoRepositroyAtRoot_witness :
  ((exists uri, (S3Storage.getMapperClass Demo.formatters "s3://test_mapper" Demo.empty_store).1
                = Raise (NoRepositroyAtRoot uri))
     <-> (S3Storage.getRepositoryCfg Demo.formatters "s3://test_mapper" Demo.empty_store).1
         = Ok PyNone)
  /\ ((S3Storage.getRepositoryCfg Demo.formatters "s3://test_mapper" Demo.empty_store).1
      = Ok PyNone ->
      (S3Storage.getMapperClass Demo.formatters "s3://test_mapper" Demo.empty_store).1
      = Raise (NoRepositroyAtRoot "s3://test_mapper"))
  /\ (forall cfg mapper,
      (S3Storage.getRepositoryCfg Demo.formatters "s3://test_mapper" Demo.empty_store).1
      = Ok (PyVal cfg) ->
      cfg_mapper cfg = Some mapper ->
      (S3Storage.getMapperClass Demo.formatters "s3://test_mapper" Demo.empty_store).1
      = Ok mapper)
  /\ (forall b,
      S3Storage.parseBucketName "s3://test_mapper" = Ok b ->
      valid_bucket_name "s3://test_mapper" = false ->
      valid_bucket_name b = true ->
      objects Demo.empty_store b !! fmtRepositoryCfg.remoteCfgName = None ->
      (S3Storage.getRepositoryCfg Demo.formatters "s3://test_mapper" Demo.empty_store).1
      = Ok PyNone).
Proof.
  apply (@getMapperClass_NoRepositroyAtRoot Demo.collaborators Demo.formatters).
  reflexivity.
Defined.

Example getMapperClass_runs :
  (S3Storage.getRepositoryCfg Demo.formatters "s3:///test_S3Storage" Demo.empty_store).1
  = Ok PyNone
  /\ (S3Storage.getMapperClass Demo.formatters "s3:///test_S3Storage" Demo.empty_store).1
     = Raise (NoRepositroyAtRoot "s3:///test_S3Storage")
  /\ (S3Storage.getRepositoryCfg Demo.formatters "s3:///test_S3Storage"
        (Demo.store_with "test_S3Storage" [])).1 = Ok PyNone
  /\ (S3Storage.getMapperClass Demo.formatters "s3:///test_S3Storage"
        (S3Storage.putRepositoryCfg Demo.formatters Demo.cfg None Demo.empty_store).2).1
     = Ok (Demo.ClassObj "MyMapper")
  /\ (S3Storage.getMapperClass Demo.formatters "file:///tmp/repo" Demo.empty_store).1
     = Raise (RuntimeError (NoStorageRegistered "file")).
Proof. by vm_compute. Qed.

Lemma putRepositoryCfg_getRepositoryCfg_witness :
  (cfg_scenario Demo.formatters "s3:///test_S3Storage" Demo.cfg Demo.cfg' Demo.empty_store).1
  = Ok (PyVal Demo.cfg, PyVal Demo.cfg').
Proof.
  apply (@putRepositoryCfg_getRepositoryCfg Demo.collaborators Demo.formatters)
    with (b := "test_S3Storage").
  - reflexivity.
  - reflexivity.
  - vm_compute. reflexivity.
  - vm_compute. reflexivity.
  - vm_compute. reflexivity.
  - vm_compute. reflexivity.
  - vm_compute. reflexivity.
  - vm_compute. reflexivity.
  - vm_compute. reflexivity.
  - vm_compute. reflexivity.
  - vm_compute. reflexivity.
Defined.

Lemma copyFile_snapshot_witness :
  Demo.copy_run "MyTestObject" (Demo.MyTestObject "foo") (Demo.MyTestObject "bar") []
  = Ok (PyList [Demo.MyTestObject "foo"], PyList [Demo.MyTestObject "foo"]).
Proof.
  apply (@copyFile_snapshot Demo.collaborators Demo.formatters "MyTestObject"
           (Demo.MyTestObject "foo") (Demo.MyTestObject "bar")
           "test_copy" "testname" "testname_copy" [] []
           (Demo.store_with "test_copy" []) ∅).
  - vm_compute. reflexivity.
  - reflexivity.
  - reflexivity.
  - reflexivity.
  - vm_compute. reflexivity.
  - vm_compute. discriminate.
  - vm_compute. reflexivity.
  - vm_compute. reflexivity.
Defined.

(** C5, as stated, fails for the type [RepositoryCfg]: its registered
    formatters store and fetch the object under the configuration key
    and do not look at the location. In an empty bucket the [write] at
    [testname] leaves no object under that key and [copyFile] raises; in
    a bucket that already holds an object under [testname] the copy goes
    through, and the later [write] at [testname] changes what [read] at
    [testname_copy] returns. *)
Lemma copy_scenario_RepositoryCfg_counterexample :
  dafPersist.getWriteFormatter Demo.formatters (type_of Demo.cfg)
  = Some fmtRepositoryCfg.writeRepositoryCfg
  /\ dafPersist.getReadFormatter Demo.formatters (Some (type_of Demo.cfg))
     = Some fmtRepositoryCfg.readRepositoryCfg
  /\ Demo.copy_run "RepositoryCfg" Demo.cfg Demo.cfg' [] = Raise (ClientError "404")
  /\ objects (S3Storage.write Demo.formatters (backend "test_copy")
                (Demo.loc "RepositoryCfg" "testname") Demo.cfg
                (Demo.store_with "test_copy" [])).2 "test_copy" !! "testname" = None
  /\ Demo.copy_run "RepositoryCfg" Demo.cfg Demo.cfg' [("testname", [])]
     = Ok (PyVal Demo.cfg, PyVal Demo.cfg')
  /\ PyVal Demo.cfg <> PyVal Demo.cfg'.
Proof.
  split; [reflexivity|]. split; [reflexivity|].
  split; [vm_compute; reflexivity|]. split; [vm_compute; reflexivity|].
  split; [vm_compute; reflexivity|]. discriminate.
Qed.

(** ** Runs of the further properties *)

Ltac run_hyp :=
  first [ reflexivity
        | vm_compute; reflexivity
        | vm_compute; discriminate
        | vm_compute; eexists; reflexivity ].

Lemma init_without_colon_raises_witness :
  exists e,
    S3Storage.__init__ "/tmp/repo" true Demo.empty_store = (Raise e, Demo.empty_store)
    /\ (e = ValueError \/ e = RuntimeError (UnsupportedScheme "")).
Proof.
  apply (@init_without_colon_raises Demo.collaborators "/tmp/repo" true Demo.empty_store).
  run_hyp.
Defined.

Lemma parseBucketName_trailing_path_witness :
  S3Storage.parseBucketName "s3://my-bucket/some/key" = Ok "my-bucket"
  /\ S3Storage.parseBucketName "s3:///my-bucket/some/key" = Ok "my-bucket/some/key".
Proof.
  apply (parseBucketName_trailing_path "my-bucket" "some/key"); run_hyp.
Defined.

Lemma init_create_postcondition_witness :
  S3Storage.parseBucketName "s3://my-bucket" = Ok "my-bucket"
  /\ S3Storage.bucket (backend "my-bucket") = {| boto3.name := "my-bucket" |}
  /\ buckets (created "my-bucket" Demo.empty_store) !! "my-bucket"
     = Some (objects Demo.empty_store "my-bucket")
  /\ (forall b', b' <> "my-bucket" ->
        buckets (created "my-bucket" Demo.empty_store) !! b' = buckets Demo.empty_store !! b')
  /\ calls (created "my-bucket" Demo.empty_store)
     = calls Demo.empty_store ++ [CreateBucket "my-bucket"].
Proof.
  apply (@init_create_postcondition Demo.collaborators "s3://my-bucket" Demo.empty_store
           (created "my-bucket" Demo.empty_store) (backend "my-bucket")); run_hyp.
Defined.

Lemma bucketExists_valid_name_witness :
  (S3Storage._bucketExists "my-bucket" Demo.empty_store).1 <> Ok false
  /\ ((S3Storage._bucketExists "my-bucket" Demo.empty_store).1 = Ok true
      <-> is_Some (buckets Demo.empty_store !! "my-bucket"))
  /\ (buckets Demo.empty_store !! "my-bucket" = None ->
      S3Storage._bucketExists "my-bucket" Demo.empty_store
      = (Raise (ClientError "404"), boto3.send (HeadBucket "my-bucket") Demo.empty_store)).
Proof.
  apply (@bucketExists_valid_name Demo.collaborators "my-bucket" Demo.empty_store); run_hyp.
Defined.

Lemma init_no_create_raises_witness :
  S3Storage.__init__ "s3:///test_copy" false (Demo.store_with "test_copy" [])
  = (Raise (NoRepositroyAtRoot "s3:///test_copy"), Demo.store_with "test_copy" [])
  /\ (S3Storage._bucketExists "s3:///test_copy" (Demo.store_with "test_copy" [])).1 = Ok false.
Proof.
  apply (@init_no_create_raises Demo.collaborators "s3:///test_copy" "test_copy"
           (Demo.store_with "test_copy" [])); run_hyp.
Defined.

Lemma exists_true_only_if_stored_witness :
  exists k rest,
    dafPersist.getLocations (Demo.loc "MyTestObject" "foo.fits") = k :: rest
    /\ is_Some (objects (Demo.store_with "test_exists" Demo.foo_fits) "test_exists" !! k).
Proof.
  apply (@exists_true_only_if_stored Demo.collaborators (backend "test_exists")
           (Demo.loc "MyTestObject" "foo.fits") (Demo.store_with "test_exists" Demo.foo_fits)).
  run_hyp.
Defined.

Lemma strippedPath_is_prefix_witness :
  PyStr.len (S3Storage.strippedPath "a[1]/b.fits[2]") < PyStr.len "a[1]/b.fits[2]".
Proof.
  apply (@strippedPath_is_prefix "a[1]/b.fits[2]"). run_hyp.
Defined.

Lemma write_read_roundtrip_witness :
  ((S3Storage.write Demo.formatters (backend "test_copy")
      (Demo.loc "MyTestObject" "testname") (Demo.MyTestObject "foo");;
    S3Storage.read Demo.formatters (backend "test_copy")
      (Demo.loc "MyTestObject" "testname")) (Demo.store_with "test_copy" [])).1
  = Ok (PyList [Demo.MyTestObject "foo"]).
Proof.
  apply (@write_read_roundtrip Demo.collaborators Demo.formatters "MyTestObject")
    with (objs := ∅); run_hyp.
Defined.

Lemma write_overwrites_witness :
  ((S3Storage.write Demo.formatters (backend "test_copy")
      (Demo.loc "MyTestObject" "testname") (Demo.MyTestObject "foo");;
    S3Storage.write Demo.formatters (backend "test_copy")
      (Demo.loc "MyTestObject" "testname") (Demo.MyTestObject "bar");;
    S3Storage.read Demo.formatters (backend "test_copy")
      (Demo.loc "MyTestObject" "testname")) (Demo.store_with "test_copy" [])).1
  = Ok (PyList [Demo.MyTestObject "bar"]).
Proof.
  apply (@write_overwrites Demo.collaborators Demo.formatters "MyTestObject")
    with (objs := ∅); run_hyp.
Defined.

Lemma read_missing_key_witness :
  (S3Storage.read Demo.formatters (backend "test_copy")
     (Demo.loc "MyTestObject" "testname") (Demo.store_with "test_copy" [])).1 = Ok PyNone
  /\ buckets (S3Storage.read Demo.formatters (backend "test_copy")
                (Demo.loc "MyTestObject" "testname") (Demo.store_with "test_copy" [])).2
     = buckets (Demo.store_with "test_copy" []).
Proof.
  apply (@read_missing_key Demo.collaborators Demo.formatters "MyTestObject")
    with (objs := ∅); run_hyp.
Defined.

Lemma write_then_exists_witness :
  ((S3Storage.write Demo.formatters (backend "test_copy")
      (Demo.loc "MyTestObject" "foo.fits") (Demo.MyTestObject "foo");;
    S3Storage.exists_ (backend "test_copy") (Demo.loc "MyTestObject" "foo.fits"))
     (Demo.store_with "test_copy" [])).1 = Ok true
  /\ ((S3Storage.write Demo.formatters (backend "test_copy")
         (Demo.loc "MyTestObject" "foo.fits") (Demo.MyTestObject "foo");;
       S3Storage.exists_ (backend "test_copy") (Demo.loc "MyTestObject" "foo.fits1"))
        (Demo.store_with "test_copy" [])).1
     = (S3Storage.exists_ (backend "test_copy") (Demo.loc "MyTestObject" "foo.fits1")
          (Demo.store_with "test_copy" [])).1.
Proof.
  apply (@write_then_exists Demo.collaborators Demo.formatters "MyTestObject")
    with (objs := ∅); run_hyp.
Defined.

Lemma write_then_instanceSearch_witness :
  ((S3Storage.write Demo.formatters (backend "test_copy")
      (Demo.loc "MyTestObject" "foo.fits") (Demo.MyTestObject "foo");;
    S3Storage.instanceSearch (backend "test_copy") "foo.fits[12]")
     (Demo.store_with "test_copy" [])).1 = Ok true.
Proof.
  apply (@write_then_instanceSearch Demo.collaborators Demo.formatters "MyTestObject"
           eq_refl "test_copy" "foo.fits" "12" [] (Demo.MyTestObject "foo")
           (Demo.store_with "test_copy" []) ∅); run_hyp.
Defined.

Lemma copyFile_missing_source_witness :
  (S3Storage.copyFile (backend "test_copy") "testname" "testname_copy"
     (Demo.store_with "test_copy" [])).1 = Raise (ClientError "404")
  /\ buckets (S3Storage.copyFile (backend "test_copy") "testname" "testname_copy"
                (Demo.store_with "test_copy" [])).2
     = buckets (Demo.store_with "test_copy" []).
Proof.
  apply (@copyFile_missing_source Demo.collaborators "test_copy" "testname" "testname_copy"
           (Demo.store_with "test_copy" []) ∅); run_hyp.
Defined.

Lemma copyFile_effect_witness :
  (S3Storage.copyFile (backend "test_copy") "testname" "testname_copy"
     (Demo.store_with "test_copy" Fixtures.testname)).1 = Ok tt.
Proof.
  apply (@copyFile_effect Demo.collaborators "test_copy" "testname" "testname_copy" []
           (Demo.store_with "test_copy" Fixtures.testname) (list_to_map Fixtures.testname));
    run_hyp.
Defined.

Lemma copyFile_then_exists_witness :
  ((S3Storage.copyFile (backend "test_copy") "testname" "testname_copy";;
    S3Storage.exists_ (backend "test_copy") (Demo.loc "MyTestObject" "testname_copy"))
     (Demo.store_with "test_copy" Fixtures.testname)).1 = Ok true.
Proof.
  apply (@copyFile_then_exists Demo.collaborators "test_copy" "testname" "testname_copy" []
           (Some "MyTestObject") None
           (Demo.store_with "test_copy" Fixtures.testname) (list_to_map Fixtures.testname));
    run_hyp.
Defined.

Lemma putRepositoryCfg_without_formatter_witness :
  (S3Storage.putRepositoryCfg Fixtures.no_formatters Demo.cfg None Demo.empty_store).1
  = Raise (RuntimeError NoWriteFormatter)
  /\ buckets (S3Storage.putRepositoryCfg Fixtures.no_formatters Demo.cfg None
                Demo.empty_store).2 !! "test_S3Storage"
     = Some (objects Demo.empty_store "test_S3Storage")
  /\ calls (S3Storage.putRepositoryCfg Fixtures.no_formatters Demo.cfg None Demo.empty_store).2
     = calls Demo.empty_store ++ [CreateBucket "test_S3Storage"].
Proof.
  apply (@putRepositoryCfg_without_formatter Demo.collaborators Fixtures.no_formatters
           Demo.cfg "s3:///test_S3Storage" "test_S3Storage" Demo.empty_store); run_hyp.
Defined.

Lemma getRepositoryCfg_creates_bucket_witness :
  buckets (S3Storage.getRepositoryCfg Demo.formatters "s3://test_mapper" Demo.empty_store).2
    !! "test_mapper" = Some (objects Demo.empty_store "test_mapper").
Proof.
  apply (@getRepositoryCfg_creates_bucket Demo.collaborators Demo.formatters eq_refl
           "s3://test_mapper" "test_mapper" Demo.empty_store); run_hyp.
Defined.

Lemma stored_cfg_decoding_witness :
  (S3Storage.getRepositoryCfg Demo.formatters "s3://test_mapper" Fixtures.empty_cfg).1 = Ok PyNone
  /\ (S3Storage.getMapperClass Demo.formatters "s3://test_mapper" Fixtures.empty_cfg).1
     = Raise (NoRepositroyAtRoot "s3://test_mapper").
Proof.
  apply (@stored_cfg_decoding Demo.collaborators Demo.formatters eq_refl
           "s3://test_mapper" "test_mapper" [] Fixtures.empty_cfg); run_hyp.
Defined.

Lemma putRepositoryCfg_loc_override_witness :
  ((S3Storage.putRepositoryCfg Demo.formatters Demo.cfg (Some "s3://elsewhere");;
    S3Storage.getRepositoryCfg Demo.formatters "s3://elsewhere") Demo.empty_store).1
  = Ok (PyVal Demo.cfg).
Proof.
  apply (@putRepositoryCfg_loc_override Demo.collaborators Demo.formatters eq_refl eq_refl
           Demo.cfg "s3://elsewhere" "elsewhere" Demo.empty_store); run_hyp.
Defined.

Lemma putRepositoryCfg_frame_witness :
  objects (S3Storage.putRepositoryCfg Demo.formatters Demo.cfg None Demo.empty_store).2
    "test_S3Storage" !! fmtRepositoryCfg.remoteCfgName
  = Some (yaml_dump Demo.cfg).
Proof.
  apply (@putRepositoryCfg_frame Demo.collaborators Demo.formatters eq_refl
           Demo.cfg "s3:///test_S3Storage" "test_S3Storage" Demo.empty_store); run_hyp.
Defined.

Lemma putRepositoryCfg_getMapperClass_witness :
  ((S3Storage.putRepositoryCfg Demo.formatters Demo.cfg None;;
    S3Storage.getMapperClass Demo.formatters "s3:///test_S3Storage") Demo.empty_store).1
  = Ok (Demo.ClassObj "MyMapper").
Proof.
  apply (@putRepositoryCfg_getMapperClass Demo.collaborators Demo.formatters eq_refl eq_refl
           Demo.cfg (Demo.ClassObj "MyMapper") "s3:///test_S3Storage" "test_S3Storage"
           Demo.empty_store); run_hyp.
Defined.

Lemma getS3URI_ignores_name_witness :
  (BasicTestCase._getS3URI (Some "jdoe") [] "test_doesNotExist").1 = "s3:///jdoe-test_copy"
  /\ S3Storage.parseBucketName (BasicTestCase._getS3URI (Some "jdoe") [] "test_doesNotExist").1
     = Ok "jdoe-test_copy"
  /\ (BasicTestCase._getS3URI (Some "jdoe") [] "test_doesNotExist").2 = ["jdoe-test_copy"].
Proof.
  apply (getS3URI_ignores_name (Some "jdoe") [] "test_doesNotExist"). run_hyp.
Defined.

Example getS3URI_runs :
  (BasicTestCase._getS3URI None [] "test_doesNotExist").1 = "s3:///test_copy"
  /\ (BasicTestCase._getS3URI None [] "test_S3Storage").1 = "s3:///test_copy"
  /\ (BasicTestCase._getS3URI (Some "") ["a"] "test_Butler") = ("s3:///test_copy", ["a"; "test_copy"]).
Proof. by vm_compute. Qed.
